(** * specmatchemp.match: the spectral matching engine

    A shallow embedding of [specmatchemp/match.py] (classes [Match] and
    [MatchLincomb]) and the properties of its objective, fitting and
    construction code.

    The numerical collaborators of the module (numpy's float arithmetic,
    the rotational kernel, scipy's convolution and spline fit, lmfit's
    optimizers) are interfaces here: every statement holds for all of
    their implementations.  A small concrete implementation ([Demo])
    runs the code on explicit inputs. *)

From Stdlib Require Import ZArith QArith Floats Uint63.
From Stdlib Require DecimalString.
From stdpp Require Import gmap strings list.

Close Scope Q_scope.
Open Scope string_scope.
Open Scope nat_scope.

(** ** Python values and exceptions *)

(** The exceptions the module can raise.  [LibraryError] stands for
    whatever an external routine raises on its own account. *)
Inductive Exn :=
| IndexError
| KeyError (key : string)
| AttributeError (attr : string)
| TypeError
| ValueError
| UnboundLocalError (var : string)
| LibraryError (msg : string).

(** A call either returns a value or raises. *)
Inductive Outcome (A : Type) :=
| Returns (a : A)
| Raises (e : Exn).
Arguments Returns {A} a.
Arguments Raises {A} e.

#[global] Instance Outcome_ret : MRet Outcome := fun A a => Returns a.
#[global] Instance Outcome_bind : MBind Outcome := fun A B f c =>
  match c with
  | Returns a => f a
  | Raises e => Raises e
  end.

(** ** Floating point numbers

    numpy's float64 and its operations, as an interface.  [lit q] is the
    float a literal (or integer) of value [q] denotes, [fpow2] is [x**2]
    and [np_sum] is [np.sum] on a one-dimensional array. *)
Class Float64 (F : Type) := {
  lit : Q -> F;
  nan : F;
  fadd : F -> F -> F;
  fsub : F -> F -> F;
  fmul : F -> F -> F;
  fdiv : F -> F -> F;
  fsqrt : F -> F;
  fpow2 : F -> F;
  np_sum : list F -> F
}.

Section Model.
Context {F : Type} `{Float64 F}.

(** What an expression of the module evaluates to: a one-dimensional
    array, a scalar, or [None]. *)
Inductive PyVal :=
| PyArr (a : list F)
| PyFloat (x : F)
| PyNone.

(** [a[k]] for a non-negative index. *)
Definition getitem {A} (a : list A) (k : nat) : Outcome A :=
  match a !! k with
  | Some x => Returns x
  | None => Raises IndexError
  end.

(** [a op b] on one-dimensional arrays, with numpy's broadcasting: equal
    lengths go element by element, a length-one operand is stretched,
    anything else is a shape error. *)
Definition np_binop (f : F -> F -> F) (a b : list F) : Outcome (list F) :=
  if decide (length a = length b) then Returns (zip_with f a b)
  else match a, b with
       | [x], _ => Returns (map (f x) b)
       | _, [y] => Returns (map (fun x => f x y) a)
       | _, _ => Raises ValueError
       end.

(** [a op= b] in place: the result must have the shape of [a]. *)
Definition np_iop (f : F -> F -> F) (a b : list F) : Outcome (list F) :=
  if decide (length a = length b) then Returns (zip_with f a b)
  else match b with
       | [y] => Returns (map (fun x => f x y) a)
       | _ => Raises ValueError
       end.

(** [row[...] = r]: assignment into a row of fixed length. *)
Definition np_assign (row r : list F) : Outcome (list F) :=
  if decide (length r = length row) then Returns r
  else match r with
       | [y] => Returns (replicate (length row) y)
       | _ => Raises ValueError
       end.

Definition np_zeros_like (a : list F) : list F :=
  replicate (length a) (lit 0).

(** [v ** 2] *)
Definition py_pow2 (v : PyVal) : Outcome PyVal :=
  match v with
  | PyArr a => Returns (PyArr (map fpow2 a))
  | PyFloat x => Returns (PyFloat (fpow2 x))
  | PyNone => Raises TypeError
  end.

(** [np.sum(v)] *)
Definition py_sum (v : PyVal) : Outcome PyVal :=
  match v with
  | PyArr a => Returns (PyFloat (np_sum a))
  | PyFloat x => Returns (PyFloat x)
  | PyNone => Raises TypeError
  end.

(** [v += x] for a scalar [x] *)
Definition py_iadd (v : PyVal) (x : F) : Outcome PyVal :=
  match v with
  | PyArr a => Returns (PyArr (map (fun r => fadd r x) a))
  | PyFloat c => Returns (PyFloat (fadd c x))
  | PyNone => Raises TypeError
  end.

(** ** lmfit parameters *)

Record Param := {
  value : F;
  vary : bool;
  pmin : option F;
  pmax : option F
}.

(** [lmfit.Parameters]: a dictionary from names to parameters. *)
Definition Parameters_add (params : gmap string Param) (name : string)
    (v : F) (vy : bool) (lo hi : option F) : gmap string Param :=
  <[name := {| value := v; vary := vy; pmin := lo; pmax := hi |}]> params.

(** [params[name]] *)
Definition getparam (params : gmap string Param) (name : string) : Outcome Param :=
  match params !! name with
  | Some p => Returns p
  | None => Raises (KeyError name)
  end.

(** The object [lmfit.minimize] returns; the module reads its [params]. *)
Record MinimizerResult := { out_params : gmap string Param }.

(** ** The match object

    [Match] and its subclass [MatchLincomb] differ in the reference data
    they hold; [refs] is the class of the object together with the
    attributes only that class sets.  [s_mod], [serr_mod] and [spl] do not
    exist until [create_model] has assigned them. *)
Inductive References :=
| Single (s_ref serr_ref : list F)
| Lincomb (num_refs : nat) (s_refs : list (list F * list F)).

Record Match := {
  w : list F;
  s_targ : list F;
  serr_targ : list F;
  refs : References;
  best_params : gmap string Param;
  best_chisq : PyVal;
  mode : string;
  opt : string;
  knot_x : list F;
  s_mod : option (list F);
  serr_mod : option (list F);
  spl : option (list F)
}.

(** *** Spline knots (match.py 37-44 and, verbatim again, 177-184) *)

Definition num_knots : nat := 5.

(** [interval = int(len(self.w)/(num_knots+1))] *)
Definition interval (wav : list F) : nat := length wav / (num_knots + 1).

(** [for i in range(1, num_knots+1): self.knot_x.append(self.w[interval*i])] *)
Fixpoint knot_loop (wav : list F) (idxs : list nat) (knots : list F) : Outcome (list F) :=
  match idxs with
  | [] => Returns knots
  | i :: rest =>
      x ← getitem wav (interval wav * i);
      knot_loop wav rest (knots ++ [x])
  end.

Definition spline_knots (wav : list F) : Outcome (list F) :=
  knot_loop wav (seq 1 num_knots) [].

(** *** Match.__init__ *)
Definition Match_init (wav : list F) (targ ref : list F * list F)
    (mode opt : string) : Outcome Match :=
  knots ← spline_knots wav;
  mret {| w := wav;
          s_targ := fst targ;
          serr_targ := snd targ;
          refs := Single (fst ref) (snd ref);
          best_params := ∅;
          best_chisq := PyFloat nan;
          mode := mode;
          opt := opt;
          knot_x := knots;
          s_mod := None;
          serr_mod := None;
          spl := None |}.

(** ** Methods

    A method runs on the object and may assign its attributes.  An
    exception leaves the assignments made before it in place, as in
    Python. *)
Definition Meth (A : Type) : Type := Match -> Outcome A * Match.

#[global] Instance Meth_ret : MRet Meth := fun A a self => (Returns a, self).
#[global] Instance Meth_bind : MBind Meth := fun A B f c self =>
  match c self with
  | (Returns a, self') => f a self'
  | (Raises e, self') => (Raises e, self')
  end.

(** Evaluating an expression that does not touch the object. *)
Definition call {A} (c : Outcome A) : Meth A := fun self => (c, self).

(** [self.attr] for an attribute every object has. *)
Definition get {A} (attr : Match -> A) : Meth A := fun self => (Returns (attr self), self).

(** [self.attr] for an attribute that may not exist (yet). *)
Definition getattr {A} (name : string) (attr : Match -> option A) : Meth A :=
  fun self => match attr self with
              | Some x => (Returns x, self)
              | None => (Raises (AttributeError name), self)
              end.

Definition attr_s_ref (self : Match) : option (list F) :=
  match refs self with Single a _ => Some a | Lincomb _ _ => None end.
Definition attr_serr_ref (self : Match) : option (list F) :=
  match refs self with Single _ e => Some e | Lincomb _ _ => None end.
Definition attr_num_refs (self : Match) : option nat :=
  match refs self with Single _ _ => None | Lincomb n _ => Some n end.
Definition attr_s_refs (self : Match) : option (list (list F * list F)) :=
  match refs self with Single _ _ => None | Lincomb _ rs => Some rs end.

(** [self.attr = v] *)
Definition set_s_mod (v : list F) : Meth unit := fun self =>
  (Returns tt,
   {| w := w self; s_targ := s_targ self; serr_targ := serr_targ self;
      refs := refs self; best_params := best_params self;
      best_chisq := best_chisq self; mode := mode self; opt := opt self;
      knot_x := knot_x self;
      s_mod := Some v; serr_mod := serr_mod self; spl := spl self |}).
Definition set_serr_mod (v : list F) : Meth unit := fun self =>
  (Returns tt,
   {| w := w self; s_targ := s_targ self; serr_targ := serr_targ self;
      refs := refs self; best_params := best_params self;
      best_chisq := best_chisq self; mode := mode self; opt := opt self;
      knot_x := knot_x self;
      s_mod := s_mod self; serr_mod := Some v; spl := spl self |}).
Definition set_spl (v : list F) : Meth unit := fun self =>
  (Returns tt,
   {| w := w self; s_targ := s_targ self; serr_targ := serr_targ self;
      refs := refs self; best_params := best_params self;
      best_chisq := best_chisq self; mode := mode self; opt := opt self;
      knot_x := knot_x self;
      s_mod := s_mod self; serr_mod := serr_mod self; spl := Some v |}).
Definition set_best_params (v : gmap string Param) : Meth unit := fun self =>
  (Returns tt,
   {| w := w self; s_targ := s_targ self; serr_targ := serr_targ self;
      refs := refs self; best_params := v;
      best_chisq := best_chisq self; mode := mode self; opt := opt self;
      knot_x := knot_x self;
      s_mod := s_mod self; serr_mod := serr_mod self; spl := spl self |}).
Definition set_best_chisq (v : PyVal) : Meth unit := fun self =>
  (Returns tt,
   {| w := w self; s_targ := s_targ self; serr_targ := serr_targ self;
      refs := refs self; best_params := best_params self;
      best_chisq := v; mode := mode self; opt := opt self;
      knot_x := knot_x self;
      s_mod := s_mod self; serr_mod := serr_mod self; spl := spl self |}).

(** ** The external routines

    [specmatchemp.kernels.rot], [scipy.ndimage.convolve1d],
    [scipy.interpolate.LSQUnivariateSpline] (the fit returns the spline,
    a function that is then evaluated on an array) and [lmfit.minimize].

    An optimizer is a search strategy: from the starting parameters and
    the method it either stops, or asks for the objective at some
    parameters and goes on from the value it gets.  It reaches the object
    only through those evaluations. *)
Inductive Search :=
| Converged (out : MinimizerResult)
| Aborted (e : Exn)
| Evaluate (params : gmap string Param) (k : PyVal -> Search).

Class Library := {
  kernels_rot : nat -> F -> F -> Outcome (list F * list F);
  convolve1d : list F -> list F -> Outcome (list F);
  LSQUnivariateSpline : list F -> list F -> list F -> Outcome (list F -> Outcome (list F));
  lmfit_minimize : gmap string Param -> option string -> Search
}.

Context `{Library}.

(** Running a search against an objective bound to the object. *)
Fixpoint run_search (fcn : gmap string Param -> Meth PyVal) (s : Search)
    : Meth MinimizerResult :=
  match s with
  | Converged out => mret out
  | Aborted e => call (Raises e)
  | Evaluate params k => v ← fcn params; run_search fcn (k v)
  end.

(** [lmfit.minimize(fcn, params)] and [lmfit.minimize(fcn, params, method=m)] *)
Definition minimize (fcn : gmap string Param -> Meth PyVal)
    (params : gmap string Param) (method : option string) : Meth MinimizerResult :=
  run_search fcn (lmfit_minimize params method).

(** *** broaden (match.py 68-85)

    The only use of [self] is [self.w]; [broaden_grid] takes it as an
    argument so that the constructor of [MatchLincomb], which broadens
    before the object is complete, can run it too. *)
Definition SPEED_OF_LIGHT : F := lit 299792.

Definition broaden_grid (wav : list F) (vsini : F) (spec : list F) : Outcome (list F) :=
  w1 ← getitem wav 1;
  w0 ← getitem wav 0;
  let dv := fmul (fdiv (fsub w1 w0) w0) SPEED_OF_LIGHT in
  let n := 151 in
  vk ← kernels_rot n dv vsini;
  let kernel := snd vk in
  convolve1d spec kernel.

Definition broaden (vsini : F) (spec : list F) : Meth (list F) :=
  wav ← get w;
  call (broaden_grid wav vsini spec).

(** *** The continuum step (match.py 60-65 and, verbatim again, 201-206) *)
Definition fit_continuum : Meth unit :=
  wav ← get w;
  t ← get s_targ;
  m ← getattr "s_mod" s_mod;
  ratio ← call (np_binop fdiv t m);
  knots ← get knot_x;
  s ← call (LSQUnivariateSpline wav ratio knots);
  wav ← get w;
  c ← call (s wav);
  set_spl c;;
  m ← getattr "s_mod" s_mod;
  c ← getattr "spl" spl;
  r ← call (np_iop fmul m c);
  set_s_mod r;;
  e ← getattr "serr_mod" serr_mod;
  c ← getattr "spl" spl;
  r ← call (np_iop fmul e c);
  set_serr_mod r.

(** *** Match.create_model (match.py 46-65) *)
Definition Match_create_model (params : gmap string Param) : Meth unit :=
  a ← getattr "s_ref" attr_s_ref;
  set_s_mod a;;
  e ← getattr "serr_ref" attr_serr_ref;
  set_serr_mod e;;
  p ← call (getparam params "vsini");
  let vsini := value p in
  m ← getattr "s_mod" s_mod;
  b ← broaden vsini m;
  set_s_mod b;;
  e ← getattr "serr_mod" serr_mod;
  b ← broaden vsini e;
  set_serr_mod b;;
  fit_continuum.

(** *** MatchLincomb.__init__ (match.py 150-184) *)

(** The loop that broadens the reference spectra in place. *)
Fixpoint broaden_refs (wav vsini : list F) (idxs : list nat)
    (s_refs : list (list F * list F)) : Outcome (list (list F * list F)) :=
  match idxs with
  | [] => Returns s_refs
  | i :: rest =>
      v ← getitem vsini i;
      row ← getitem s_refs i;
      b ← broaden_grid wav v (fst row);
      r ← np_assign (fst row) b;
      let s_refs := <[i := (r, snd row)]> s_refs in
      v ← getitem vsini i;
      row ← getitem s_refs i;
      b ← broaden_grid wav v (snd row);
      r ← np_assign (snd row) b;
      let s_refs := <[i := (fst row, r)]> s_refs in
      broaden_refs wav vsini rest s_refs
  end.

Definition MatchLincomb_init (wav : list F) (targ : list F * list F)
    (s_refs : list (list F * list F)) (vsini : list F)
    (mode opt : string) : Outcome Match :=
  let num_refs := length s_refs in
  s_refs ← broaden_refs wav vsini (seq 0 num_refs) s_refs;
  knots ← spline_knots wav;
  mret {| w := wav;
          s_targ := fst targ;
          serr_targ := snd targ;
          refs := Lincomb num_refs s_refs;
          best_params := ∅;
          best_chisq := PyFloat nan;
          mode := mode;
          opt := opt;
          knot_x := knots;
          s_mod := None;
          serr_mod := None;
          spl := None |}.

(** *** MatchLincomb.create_model (match.py 186-206) *)

(** ['coeff_{0:d}'.format(i)] *)
Definition coeff_name (i : nat) : string :=
  "coeff_" ++ DecimalString.NilZero.string_of_uint (Nat.to_uint i).

(** [self.s_refs[i]] *)
Definition s_refs_row (i : nat) : Meth (list F * list F) :=
  rs ← getattr "s_refs" attr_s_refs;
  call (getitem rs i).

Fixpoint lincomb_loop (params : gmap string Param) (idxs : list nat) : Meth unit :=
  match idxs with
  | [] => mret tt
  | i :: rest =>
      let p := coeff_name i in
      m ← getattr "s_mod" s_mod;
      row ← s_refs_row i;
      c ← call (getparam params p);
      r ← call (np_iop fadd m (map (fun x => fmul x (value c)) (fst row)));
      set_s_mod r;;
      e ← getattr "serr_mod" serr_mod;
      row ← s_refs_row i;
      c ← call (getparam params p);
      r ← call (np_iop fadd e (map (fun x => fmul x (value c)) (snd row)));
      set_serr_mod r;;
      lincomb_loop params rest
  end.

Definition MatchLincomb_create_model (params : gmap string Param) : Meth unit :=
  wav ← get w;
  set_s_mod (np_zeros_like wav);;
  wav ← get w;
  set_serr_mod (np_zeros_like wav);;
  n ← getattr "num_refs" attr_num_refs;
  lincomb_loop params (seq 0 n);;
  fit_continuum.

(** [self.create_model(params)]: the method of the object's class. *)
Definition create_model (params : gmap string Param) : Meth unit := fun self =>
  match refs self with
  | Single _ _ => Match_create_model params self
  | Lincomb _ _ => MatchLincomb_create_model params self
  end.

(** *** Match.objective (match.py 88-111) *)
Definition Match_objective (params : gmap string Param) : Meth PyVal :=
  create_model params;;
  md ← get mode;
  residuals ←
    (if decide (md = "normalized") then
       t ← get s_targ;
       m ← getattr "s_mod" s_mod;
       d ← call (np_binop fsub t m);
       et ← get serr_targ;
       em ← getattr "serr_mod" serr_mod;
       v ← call (np_binop fadd (map fpow2 et) (map fpow2 em));
       call (np_binop fdiv d (map fsqrt v))
     else
       t ← get s_targ;
       m ← getattr "s_mod" s_mod;
       call (np_binop fsub t m));
  let chi_square := np_sum (map fpow2 residuals) in
  o ← get opt;
  if decide (o = "lm") then mret (PyArr residuals)
  else if decide (o = "nelder") then mret (PyFloat chi_square)
  else mret PyNone.

(** *** MatchLincomb.objective (match.py 209-230) *)
Fixpoint sum_coeff_loop (params : gmap string Param) (idxs : list nat)
    (sum_coeff : F) : Outcome F :=
  match idxs with
  | [] => Returns sum_coeff
  | i :: rest =>
      let p := coeff_name i in
      c ← getparam params p;
      sum_coeff_loop params rest (fadd sum_coeff (value c))
  end.

Definition WIDTH : F := lit (1 # 1000).

(** [(sum_coeff-1)**2/(2*WIDTH**2)] *)
Definition gaussian_prior (sum_coeff : F) : F :=
  fdiv (fpow2 (fsub sum_coeff (lit 1))) (fmul (lit 2) (fpow2 WIDTH)).

Definition MatchLincomb_objective (params : gmap string Param) : Meth PyVal :=
  chi_square ← Match_objective params;
  n ← getattr "num_refs" attr_num_refs;
  sum_coeff ← call (sum_coeff_loop params (seq 0 n) (lit 0));
  call (py_iadd chi_square (gaussian_prior sum_coeff)).

(** [self.objective(params)]: the method of the object's class. *)
Definition objective (params : gmap string Param) : Meth PyVal := fun self =>
  match refs self with
  | Single _ _ => Match_objective params self
  | Lincomb _ _ => MatchLincomb_objective params self
  end.

(** *** Match.best_fit (match.py 113-135) *)

(** Lines 119-123: the container the optimizer starts from. *)
Definition Match_best_fit_params (params : option (gmap string Param))
    : gmap string Param :=
  let params := match params with
                | None => ∅
                | Some params => params
                end in
  Parameters_add params "vsini" (lit 1) true (Some (lit 0)) (Some (lit 10)).

Definition Match_best_fit (params : option (gmap string Param)) : Meth PyVal :=
  let params := Match_best_fit_params params in
  o ← get opt;
  out ←
    (if decide (o = "lm") then
       out ← minimize objective params None;
       r ← objective (out_params out);
       c ← call (py_pow2 r ≫= py_sum);
       set_best_chisq c;;
       mret (Some out)
     else if decide (o = "nelder") then
       out ← minimize objective params (Some "nelder");
       c ← objective (out_params out);
       set_best_chisq c;;
       mret (Some out)
     else mret None);
  out ← call (match out with
              | Some out => Returns out
              | None => Raises (UnboundLocalError "out")
              end);
  set_best_params (out_params out);;
  get best_chisq.

(** *** Match.best_residuals (match.py 137-146) *)
Definition best_residuals : Meth (list F) :=
  md ← get mode;
  if decide (md = "normalized") then
    t ← get s_targ;
    m ← getattr "s_mod" s_mod;
    d ← call (np_binop fsub t m);
    et ← get serr_targ;
    em ← getattr "serr_mod" serr_mod;
    v ← call (np_binop fadd (map fpow2 et) (map fpow2 em));
    call (np_binop fdiv d (map fsqrt v))
  else
    t ← get s_targ;
    m ← getattr "s_mod" s_mod;
    call (np_binop fsub t m).

(** *** MatchLincomb.add_lincomb_params (match.py 252-259) *)
Fixpoint add_coeff_loop (num_refs : nat) (idxs : list nat)
    (params : gmap string Param) : gmap string Param :=
  match idxs with
  | [] => params
  | i :: rest =>
      let p := coeff_name i in
      let v := fdiv (lit 1) (lit (inject_Z (Z.of_nat num_refs))) in
      add_coeff_loop num_refs rest
        (Parameters_add params p v true (Some (lit 0)) (Some (lit 1)))
  end.

Definition add_lincomb_params (params : gmap string Param)
    : Meth (gmap string Param) :=
  n ← getattr "num_refs" attr_num_refs;
  let params :=
    Parameters_add params "num_refs" (lit (inject_Z (Z.of_nat n))) false None None in
  n ← getattr "num_refs" attr_num_refs;
  mret (add_coeff_loop n (seq 0 n) params).

(** *** MatchLincomb.best_fit (match.py 232-250) *)
Definition MatchLincomb_best_fit : Meth PyVal :=
  let params := ∅ in
  params ← add_lincomb_params params;
  out ← minimize objective params (Some "nelder");
  set_best_params (out_params out);;
  bp ← get best_params;
  c ← objective bp;
  set_best_chisq c;;
  get best_chisq.

(** ** Notions used to state the properties *)

(** The residual sequence in the specification's words: target flux
    minus model flux, element by element, divided in mode [normalized]
    by the root of the sum of the squared uncertainties. *)
Definition residual_sequence (md : string) (t et m em : list F) : list F :=
  if decide (md = "normalized") then
    zip_with fdiv (zip_with fsub t m)
      (zip_with (fun a b => fsqrt (fadd (fpow2 a) (fpow2 b))) et em)
  else zip_with fsub t m.

(** The object holds the model [(m, em)], sampled like the target. *)
Definition aligned (self : Match) (m em : list F) : Prop :=
  s_mod self = Some m /\ serr_mod self = Some em /\
  length m = length (s_targ self) /\
  (mode self = "normalized" ->
   length (serr_targ self) = length (s_targ self) /\
   length em = length (s_targ self)).

(** An object without its trial model: what construction fixes and the
    fit results. *)
Definition frame (self : Match) : Match :=
  {| w := w self; s_targ := s_targ self; serr_targ := serr_targ self;
     refs := refs self; best_params := best_params self;
     best_chisq := best_chisq self; mode := mode self; opt := opt self;
     knot_x := knot_x self;
     s_mod := None; serr_mod := None; spl := None |}.

(** The default starting point of [Match.best_fit]. *)
Definition default_vsini : Param :=
  {| value := lit 1; vary := true; pmin := Some (lit 0); pmax := Some (lit 10) |}.

(** A method that leaves everything but the trial model as it was. *)
Definition keeps_frame {A} (c : Meth A) : Prop :=
  forall self, frame (c self).2 = frame self.

(** *** Two runs of a method

    A method assigns the trial model in the order [s_mod], [serr_mod],
    [spl].  At stage [n] the first [n] of them have been assigned.
    [alike n a b]: the objects agree on their frame and on what has been
    assigned by stage [n]; [untouched n s s']: what has not been
    assigned by stage [n] is in [s'] as it was in [s]. *)
Definition alike (n : nat) (a b : Match) : Prop :=
  frame a = frame b /\
  (1 <= n -> s_mod a = s_mod b) /\
  (2 <= n -> serr_mod a = serr_mod b) /\
  (3 <= n -> spl a = spl b).

Definition untouched (n : nat) (s s' : Match) : Prop :=
  (n < 1 -> s_mod s' = s_mod s) /\
  (n < 2 -> serr_mod s' = serr_mod s) /\
  (n < 3 -> spl s' = spl s).

(** [two_runs n c n']: run from two objects alike at stage [n], the
    method [c] returns or raises the same in both, and both runs stop
    at a common stage, which is [n'] when they return. *)
Definition two_runs {A} (n : nat) (c : Meth A) (n' : nat) : Prop :=
  forall a b, alike n a b ->
    (c a).1 = (c b).1 /\
    exists k, n <= k /\ alike k (c a).2 (c b).2 /\
      untouched k a (c a).2 /\ untouched k b (c b).2 /\
      forall x, (c a).1 = Returns x -> k = n'.

(** What construction fixes for the lifetime of the object. *)
Definition construction (self : Match)
    : list F * list F * list F * References * string * string * list F :=
  (w self, s_targ self, serr_targ self, refs self, mode self, opt self,
   knot_x self).

Definition keeps_construction {A} (c : Meth A) : Prop :=
  forall self, construction (c self).2 = construction self.

End Model.

(** * specmatchemp/utils/utils.py

    [calc_logg] (utils.py 11-29).  The astropy computation of lines
    24-26 is an interface; line 27 reads the name [row], which is no
    parameter or local of the function, so it is looked up among the
    globals of the module. *)

(** What a call of the utility module comes to. *)
Inductive Result (A : Type) :=
| Ok (a : A)
| NameError (name : string)
| Raised (e : Exn).
Arguments Ok {A} a.
Arguments NameError {A} name.
Arguments Raised {A} e.

#[global] Instance Result_ret : MRet Result := fun A a => Ok a.
#[global] Instance Result_bind : MBind Result := fun A B f c =>
  match c with
  | Ok a => f a
  | NameError name => NameError name
  | Raised e => Raised e
  end.

Section Utils.
Context {F : Type} `{Float64 F}.

(** [Obj]: the objects a global name can be bound to.
    [logg_cgs radius mass] is
    [np.log10((c.G * mstar/(rstar**2)).cgs.value)] for
    [rstar = radius * c.R_sun] and [mstar = mass * c.M_sun];
    [subscript row key] is [row[key]]. *)
Class Astropy (Obj : Type) := {
  logg_cgs : F -> F -> Outcome F;
  subscript : Obj -> string -> Outcome F
}.

Context {Obj : Type} `{Astropy Obj}.

Definition external {A} (o : Outcome A) : Result A :=
  match o with
  | Returns a => Ok a
  | Raises e => Raised e
  end.

(** Loading a name that is not local to the function. *)
Definition load_global (globals : gmap string Obj) (name : string) : Result Obj :=
  match globals !! name with
  | Some v => Ok v
  | None => NameError name
  end.

Definition calc_logg (globals : gmap string Obj)
    (radius u_radius mass u_mass : F) : Result (F * F) :=
  logg ← external (logg_cgs radius mass);
  row ← load_global globals "row";
  e_M ← external (subscript row "e_M");
  row ← load_global globals "row";
  M ← external (subscript row "M");
  row ← load_global globals "row";
  e_R ← external (subscript row "e_R");
  row ← load_global globals "row";
  R ← external (subscript row "R");
  let u_logg := fmul (fadd (fdiv e_M M) (fdiv (fmul (lit 2) e_R) R)) logg in
  mret (logg, u_logg).

End Utils.

(** ** A concrete implementation of the interfaces

    IEEE binary64 numbers, and the simplest routines that have the
    shape of the external ones: a one-point broadening kernel, the
    convolution with a one-point kernel, a flat continuum, and an
    optimizer that evaluates its objective once and stays where it
    started.  Used to run the code on explicit objects. *)
Module Demo.

Definition of_Z (z : Z) : float :=
  match z with
  | Z0 => PrimFloat.zero
  | Zpos _ => PrimFloat.of_uint63 (Uint63.of_Z z)
  | Zneg p => PrimFloat.opp (PrimFloat.of_uint63 (Uint63.of_Z (Zpos p)))
  end.

#[global] Instance float64 : Float64 float := {|
  lit q := PrimFloat.div (of_Z (Qnum q)) (of_Z (Zpos (Qden q)));
  nan := PrimFloat.nan;
  fadd := PrimFloat.add;
  fsub := PrimFloat.sub;
  fmul := PrimFloat.mul;
  fdiv := PrimFloat.div;
  fsqrt := PrimFloat.sqrt;
  fpow2 x := PrimFloat.mul x x;
  np_sum a := fold_left PrimFloat.add a PrimFloat.zero
|}.

#[global] Instance library : @Library float := {|
  kernels_rot n dv vsini := Returns ([lit 0], [lit 1]);
  convolve1d spec kernel :=
    match kernel with
    | [k] => Returns (map (fun x => fmul x k) spec)
    | _ => Raises (LibraryError "kernel")
    end;
  LSQUnivariateSpline x y t :=
    Returns (fun x' => Returns (map (fun _ => lit 1) x'));
  lmfit_minimize params method :=
    Evaluate params (fun _ => Converged {| out_params := params |})
|}.

(** A seven-point grid with a flat target and a flat reference. *)
Definition grid7 : list float :=
  map (fun z => lit (inject_Z z)) [5000; 5001; 5002; 5003; 5004; 5005; 5006]%Z.
Definition flat7 (x : Q) : list float := replicate 7 (lit x).
Definition targ7 : list float * list float := (flat7 2, flat7 (1 # 10)).
Definition ref7 : list float * list float := (flat7 1, flat7 (1 # 10)).

(** The six-point grid: the shortest one the knot computation is meant for. *)
Definition grid6 : list float :=
  map (fun z => lit (inject_Z z)) [5000; 5001; 5002; 5003; 5004; 5005]%Z.

(** [Match(grid7, targ7, ref7, mode, opt)] as the constructor leaves it. *)
Definition match7 (mode opt : string) : Match :=
  {| w := grid7;
     s_targ := fst targ7;
     serr_targ := snd targ7;
     refs := Single (fst ref7) (snd ref7);
     best_params := ∅;
     best_chisq := PyFloat nan;
     mode := mode;
     opt := opt;
     knot_x := map (fun z => lit (inject_Z z)) [5001; 5002; 5003; 5004; 5005]%Z;
     s_mod := None;
     serr_mod := None;
     spl := None |}.

(** [MatchLincomb(grid7, targ7, [ref7, ref7], [0, 0], mode, opt)] as the
    constructor leaves it. *)
Definition lincomb7 (mode opt : string) : Match :=
  {| w := grid7;
     s_targ := fst targ7;
     serr_targ := snd targ7;
     refs := Lincomb 2 [ref7; ref7];
     best_params := ∅;
     best_chisq := PyFloat nan;
     mode := mode;
     opt := opt;
     knot_x := map (fun z => lit (inject_Z z)) [5001; 5002; 5003; 5004; 5005]%Z;
     s_mod := None;
     serr_mod := None;
     spl := None |}.

(** A parameter container holding [name] at [x], unbounded. *)
Definition param1 (name : string) (x : Q) : gmap string Param :=
  Parameters_add ∅ name (lit x) true None None.

Definition coeffs2 (x y : Q) : gmap string Param :=
  Parameters_add (param1 "coeff_0" x) "coeff_1" (lit y) true None None.

(** The broadening used in the runs below: none. *)
Definition vsini0 : gmap string Param := param1 "vsini" 0.

(** The utility module on its own: its globals are the three modules it
    imports and the two functions it defines. *)
#[global] Instance astropy : @Astropy float unit := {|
  logg_cgs radius mass := Returns (lit (444 # 100));
  subscript row key := Raises (KeyError key)
|}.

Definition utils_globals : gmap string unit :=
  list_to_map [("np", tt); ("c", tt); ("u", tt);
               ("calc_logg", tt); ("calc_radius", tt)].

(** A one-point grid. *)
Definition grid1 : list float := [lit 5000].

(** An optimizer that stops at once, on a container of its own. *)
Definition library_giving_up : @Library float := {|
  kernels_rot := @kernels_rot float library;
  convolve1d := @convolve1d float library;
  LSQUnivariateSpline := @LSQUnivariateSpline float library;
  lmfit_minimize params method :=
    Converged {| out_params := param1 "vsini" 0 |}
|}.

(** An object on another grid, or with another target flux. *)
Definition on_grid (wav : list float) (self : Match) : Match :=
  {| w := wav; s_targ := s_targ self; serr_targ := serr_targ self;
     refs := refs self; best_params := best_params self;
     best_chisq := best_chisq self; mode := mode self; opt := opt self;
     knot_x := knot_x self;
     s_mod := s_mod self; serr_mod := serr_mod self; spl := spl self |}.

Definition with_target (flux : list float) (self : Match) : Match :=
  {| w := w self; s_targ := flux; serr_targ := serr_targ self;
     refs := refs self; best_params := best_params self;
     best_chisq := best_chisq self; mode := mode self; opt := opt self;
     knot_x := knot_x self;
     s_mod := s_mod self; serr_mod := serr_mod self; spl := spl self |}.

End Demo.

(** * Properties *)

Example demo_Match_init :
  Match_init Demo.grid7 Demo.targ7 Demo.ref7 "default" "lm"
  = Returns (Demo.match7 "default" "lm").
Proof. vm_compute. reflexivity. Qed.

Example demo_MatchLincomb_init :
  MatchLincomb_init Demo.grid7 Demo.targ7 [Demo.ref7; Demo.ref7]
    [lit 0; lit 0] "default" "lm"
  = Returns (Demo.lincomb7 "default" "lm").
Proof. vm_compute. reflexivity. Qed.

Section Properties.
Context {F : Type} `{Float64 F} `{!@Library F}.

#[local] Abbreviation Match := (@Match F).
#[local] Abbreviation Meth := (@Meth F).
#[local] Abbreviation Param := (@Param F).
#[local] Abbreviation PyVal := (@PyVal F).
#[local] Abbreviation Search := (@Search F).
#[local] Abbreviation MinimizerResult := (@MinimizerResult F).

(** ** Running methods *)

Ltac run_meth :=
  unfold mbind, mret, Meth_bind, Meth_ret, call, get, getattr,
    set_s_mod, set_serr_mod, set_spl, set_best_params, set_best_chisq;
  cbn beta iota.

(** ** Spline knots *)

Lemma knot_index_lt (n i : nat) : 0 < n -> i <= 5 -> n / 6 * i < n.
Proof.
  intros Hn Hi. pose proof (Nat.div_mod_eq n 6) as E.
  pose proof (Nat.mod_upper_bound n 6). nia.
Qed.

Lemma knot_index_interior (n i : nat) :
  7 <= n -> 1 <= i <= 5 -> 0 < n / 6 * i < n - 1.
Proof.
  intros Hn Hi. pose proof (Nat.div_mod_eq n 6) as E.
  pose proof (Nat.mod_upper_bound n 6).
  assert (1 <= n / 6) by (apply Nat.div_le_lower_bound; lia). nia.
Qed.

Lemma getitem_lt {A} (a : list A) (k : nat) :
  k < length a -> exists x, getitem a k = Returns x /\ a !! k = Some x.
Proof.
  intros Hk. destruct (lookup_lt_is_Some_2 a k Hk) as [x Hx].
  exists x. unfold getitem. rewrite Hx. done.
Qed.

(** On a non-empty grid the knot loop returns five knots, the [i]-th
    one read at index [interval * i]. *)
Lemma spline_knots_returns (wav : list F) :
  0 < length wav ->
  exists ks, spline_knots wav = Returns ks /\ length ks = 5 /\
    forall i, 1 <= i <= 5 -> ks !! (i - 1) = wav !! (length wav / 6 * i).
Proof.
  intros Hn. unfold spline_knots, num_knots. simpl seq.
  assert (Hi : forall i, i <= 5 -> interval wav * i < length wav)
    by (intros; apply knot_index_lt; done).
  destruct (getitem_lt wav _ (Hi 1 ltac:(lia))) as (x1 & E1 & L1).
  destruct (getitem_lt wav _ (Hi 2 ltac:(lia))) as (x2 & E2 & L2).
  destruct (getitem_lt wav _ (Hi 3 ltac:(lia))) as (x3 & E3 & L3).
  destruct (getitem_lt wav _ (Hi 4 ltac:(lia))) as (x4 & E4 & L4).
  destruct (getitem_lt wav _ (Hi 5 ltac:(lia))) as (x5 & E5 & L5).
  exists [x1; x2; x3; x4; x5]. split; [|split; [done|]].
  - simpl. rewrite E1. simpl. rewrite E2. simpl. rewrite E3. simpl.
    rewrite E4. simpl. rewrite E5. done.
  - unfold interval, num_knots in *. simpl Nat.add in *.
    intros i Hr.
    assert (i = 1 \/ i = 2 \/ i = 3 \/ i = 4 \/ i = 5) as Hc by lia.
    destruct Hc as [->|[->|[->|[->| ->]]]];
      [rewrite L1|rewrite L2|rewrite L3|rewrite L4|rewrite L5]; reflexivity.
Qed.

(** C5 (as amended): on a grid of at least seven points, construction of
    a Match and of a MatchLincomb computes exactly five knots, the i-th
    (i = 1..5) being the grid value at index floor(n/6)*i, and each of
    these indices lies strictly between 0 and n-1. *)
Theorem knots_interior_from_seven (wav : list F) :
  7 <= length wav ->
  exists ks, spline_knots wav = Returns ks /\ length ks = 5 /\
    (forall i, 1 <= i <= 5 ->
       ks !! (i - 1) = wav !! (length wav / 6 * i) /\
       0 < length wav / 6 * i < length wav - 1) /\
    (forall targ ref md o self,
       Match_init wav targ ref md o = Returns self -> knot_x self = ks) /\
    (forall targ s_refs vsini md o self,
       MatchLincomb_init wav targ s_refs vsini md o = Returns self ->
       knot_x self = ks).
Proof.
  intros Hn.
  destruct (spline_knots_returns wav ltac:(lia)) as (ks & E & Hlen & Hks).
  exists ks. repeat split; try done.
  - by apply Hks.
  - apply knot_index_interior; [done | lia].
  - apply knot_index_interior; [done | lia].
  - intros targ ref md o self. unfold Match_init. rewrite E. simpl.
    intros [= <-]. done.
  - intros targ s_refs vsini md o self. unfold MatchLincomb_init.
    destruct (broaden_refs _ _ _ _); simpl; [|done].
    rewrite E. simpl. intros [= <-]. done.
Qed.

(** ** Construction *)

(** C7 (as amended): construction of a Match performs no length check.
    On any non-empty wavelength grid it succeeds whatever the length of
    the target flux, and stores the grid and the target as given. *)
Theorem Match_init_accepts_any_target_length
    (wav : list F) (targ ref : list F * list F) (md o : string) :
  wav <> [] ->
  exists self, Match_init wav targ ref md o = Returns self /\
    w self = wav /\ s_targ self = targ.1 /\ serr_targ self = targ.2.
Proof.
  intros Hne.
  assert (0 < length wav) as Hn by (destruct wav; [done | simpl; lia]).
  destruct (spline_knots_returns wav Hn) as (ks & E & _).
  unfold Match_init. rewrite E. simpl. eexists. repeat split; reflexivity.
Qed.

(** ** Accessors before any fit *)

(** C8: on a freshly constructed Match, on which no method has run,
    best_residuals raises (the attribute s_mod does not exist yet: a
    Python AttributeError) and returns no value. *)
Theorem best_residuals_before_fit_raises
    (wav : list F) (targ ref : list F * list F) (md o : string) (self : Match) :
  Match_init wav targ ref md o = Returns self ->
  best_residuals self = (Raises (AttributeError "s_mod"), self).
Proof.
  unfold Match_init. destruct (spline_knots wav); simpl; [|done].
  intros [= <-]. unfold best_residuals. run_meth. cbn.
  destruct (decide (md = "normalized")); reflexivity.
Qed.

(** ** The starting point of Match.best_fit *)

(** C6 (as amended): best_fit always starts the optimization from
    vsini = 1.0 with bounds [0, 10].  A container passed by the caller
    is used for its other entries only: its vsini entry, if any, is
    replaced by the default, so the fit does not depend on it. *)
Theorem best_fit_always_starts_at_default_vsini
    (params : option (gmap string Param)) :
  Match_best_fit_params params !! "vsini" = Some default_vsini /\
  (forall name, name <> "vsini" ->
     Match_best_fit_params params !! name = default ∅ params !! name) /\
  Match_best_fit_params None = {[ "vsini" := default_vsini ]} /\
  (forall supplied : gmap string Param,
     Match_best_fit (Some supplied)
     = Match_best_fit (Some (delete "vsini" supplied))).
Proof.
  unfold Match_best_fit_params, Parameters_add, default_vsini.
  split; [apply lookup_insert_eq|].
  split; [intros name Hne; rewrite lookup_insert_ne by done;
          destruct params; reflexivity|].
  split; [reflexivity|].
  intros supplied. unfold Match_best_fit, Match_best_fit_params, Parameters_add.
  rewrite insert_delete_eq. reflexivity.
Qed.

(** ** What the methods leave untouched *)

Lemma bind_run {A B} (c : Meth A) (k : A -> Meth B) (self : Match) :
  (c ≫= k) self =
  match c self return Outcome B * Match with
  | (Returns a, self') => k a self'
  | (Raises e, self') => (Raises e, self')
  end.
Proof. reflexivity. Qed.

Lemma keeps_frame_bind {A B} (c : Meth A) (k : A -> Meth B) :
  keeps_frame c -> (forall a, keeps_frame (k a)) -> keeps_frame (c ≫= k).
Proof.
  intros Hc Hk self. rewrite bind_run. specialize (Hc self).
  destruct (c self) as [[a|e] self']; simpl in *; [|done].
  rewrite Hk. done.
Qed.

Lemma keeps_frame_ret {A} (a : A) : keeps_frame (mret a : Meth A).
Proof. intros self. reflexivity. Qed.

Lemma keeps_frame_call {A} (o : Outcome A) : keeps_frame (call o : Meth A).
Proof. intros self. reflexivity. Qed.

Lemma keeps_frame_get {A} (attr : Match -> A) : keeps_frame (get attr).
Proof. intros self. reflexivity. Qed.

Lemma keeps_frame_getattr {A} name (attr : Match -> option A) :
  keeps_frame (getattr name attr).
Proof. intros self. unfold getattr. destruct (attr self); reflexivity. Qed.

Lemma keeps_frame_set_s_mod (v : list F) : keeps_frame (set_s_mod v).
Proof. intros self. reflexivity. Qed.

Lemma keeps_frame_set_serr_mod (v : list F) : keeps_frame (set_serr_mod v).
Proof. intros self. reflexivity. Qed.

Lemma keeps_frame_set_spl (v : list F) : keeps_frame (set_spl v).
Proof. intros self. reflexivity. Qed.

Lemma keeps_frame_if {A} (b : bool) (c d : Meth A) :
  keeps_frame c -> keeps_frame d -> keeps_frame (if b then c else d).
Proof. destruct b; done. Qed.

Lemma keeps_frame_decide {A} (P : Prop) `{Decision P} (c d : Meth A) :
  keeps_frame c -> keeps_frame d -> keeps_frame (if decide P then c else d).
Proof. destruct (decide P); done. Qed.

Create HintDb frame discriminated.
#[local] Hint Resolve keeps_frame_ret keeps_frame_call keeps_frame_get
  keeps_frame_getattr keeps_frame_set_s_mod keeps_frame_set_serr_mod
  keeps_frame_set_spl : frame.

Ltac frame_steps :=
  repeat first
    [ apply keeps_frame_bind; [|intros ?]
    | apply keeps_frame_decide
    | solve [auto with frame] ].

Lemma keeps_frame_broaden (vsini : F) spec : keeps_frame (broaden vsini spec).
Proof. unfold broaden. frame_steps. Qed.

Lemma keeps_frame_fit_continuum : keeps_frame fit_continuum.
Proof. unfold fit_continuum. frame_steps. Qed.

#[local] Hint Resolve keeps_frame_broaden keeps_frame_fit_continuum : frame.

Lemma keeps_frame_Match_create_model params :
  keeps_frame (Match_create_model params).
Proof. unfold Match_create_model. frame_steps. Qed.

Lemma keeps_frame_lincomb_loop params idxs :
  keeps_frame (lincomb_loop params idxs).
Proof.
  induction idxs as [|i rest IH]; simpl; [auto with frame|].
  unfold s_refs_row. frame_steps.
Qed.

#[local] Hint Resolve keeps_frame_lincomb_loop : frame.

Lemma keeps_frame_MatchLincomb_create_model params :
  keeps_frame (MatchLincomb_create_model params).
Proof. unfold MatchLincomb_create_model. frame_steps. Qed.

Lemma keeps_frame_create_model params : keeps_frame (create_model params).
Proof.
  intros self. unfold create_model. destruct (refs self).
  - apply keeps_frame_Match_create_model.
  - apply keeps_frame_MatchLincomb_create_model.
Qed.

#[local] Hint Resolve keeps_frame_create_model : frame.

Lemma keeps_frame_Match_objective params : keeps_frame (Match_objective params).
Proof. unfold Match_objective. frame_steps. Qed.

#[local] Hint Resolve keeps_frame_Match_objective : frame.

Lemma keeps_frame_objective params : keeps_frame (objective params).
Proof.
  intros self. unfold objective. destruct (refs self).
  - apply keeps_frame_Match_objective.
  - unfold MatchLincomb_objective. revert self. frame_steps.
Qed.

(** An optimizer reaches the object only through the objective: a
    search leaves untouched whatever the objective leaves untouched. *)
Lemma keeps_frame_run_search fcn (s : Search) :
  (forall params, keeps_frame (fcn params)) -> keeps_frame (run_search fcn s).
Proof.
  intros Hf. induction s as [out|e|params k IH]; simpl.
  - auto with frame.
  - auto with frame.
  - apply keeps_frame_bind; [apply Hf | exact IH].
Qed.

Lemma keeps_frame_minimize params method :
  keeps_frame (minimize objective params method).
Proof. apply keeps_frame_run_search, keeps_frame_objective. Qed.

Lemma frame_fields (a b : Match) :
  frame a = frame b ->
  w a = w b /\ s_targ a = s_targ b /\ serr_targ a = serr_targ b /\
  refs a = refs b /\ best_params a = best_params b /\
  best_chisq a = best_chisq b /\ mode a = mode b /\ opt a = opt b /\
  knot_x a = knot_x b.
Proof. unfold frame. intros [=]. repeat split; done. Qed.

(** ** Residuals *)

Lemma np_binop_same_length (f : F -> F -> F) (a b : list F) :
  length a = length b -> np_binop f a b = Returns (zip_with f a b).
Proof. intros E. unfold np_binop. rewrite decide_True by done. done. Qed.

Lemma map_zip_with_map {A B C D} (g : C -> D) (f : B -> B -> C) (h : A -> B)
    (a b : list A) :
  map g (zip_with f (map h a) (map h b))
  = zip_with (fun x y => g (f (h x) (h y))) a b.
Proof.
  revert b. induction a as [|x a IH]; intros [|y b]; simpl; [done..|].
  by rewrite IH.
Qed.

(** With a model in place and sampled like the target, the residual
    code computes the residual sequence and leaves the object alone. *)
Lemma best_residuals_aligned (self : Match) (m em : list F) :
  aligned self m em ->
  best_residuals self
  = (Returns (residual_sequence (mode self) (s_targ self) (serr_targ self) m em),
     self).
Proof.
  intros (Em & Ee & Lm & Ln).
  unfold best_residuals, residual_sequence. run_meth.
  destruct (decide (mode self = "normalized")) as [Hn|Hn].
  - destruct (Ln Hn) as [Let Lem]. cbn beta iota. rewrite Em.
    rewrite np_binop_same_length by done. rewrite Ee.
    rewrite np_binop_same_length by (rewrite !length_map; congruence).
    rewrite map_zip_with_map.
    rewrite np_binop_same_length; [done|].
    rewrite !length_zip_with. lia.
  - cbn beta iota. rewrite Em. rewrite np_binop_same_length by done. done.
Qed.

Lemma best_residuals_state (self : Match) : (best_residuals self).2 = self.
Proof.
  unfold best_residuals. run_meth.
  destruct (decide (mode self = "normalized")); cbn beta iota;
    repeat case_match; simplify_eq; reflexivity.
Qed.

(** [Match.objective] is [create_model], then the residual code of
    [best_residuals], then the choice on the optimizer kind. *)
Lemma Match_objective_run (params : gmap string Param) (self : Match) :
  Match_objective params self =
  match create_model params self return Outcome PyVal * Match with
  | (Returns _, self1) =>
      match best_residuals self1 return Outcome PyVal * Match with
      | (Returns residuals, self2) =>
          (Returns (if decide (opt self2 = "lm") then PyArr residuals
                    else if decide (opt self2 = "nelder")
                         then PyFloat (np_sum (map fpow2 residuals))
                         else PyNone), self2)
      | (Raises e, self2) => (Raises e, self2)
      end
  | (Raises e, self1) => (Raises e, self1)
  end.
Proof.
  unfold Match_objective. rewrite bind_run.
  destruct (create_model params self) as [[[]|e] self1]; [|done].
  unfold best_residuals. run_meth.
  destruct (decide (mode self1 = "normalized")); cbn beta iota;
    repeat case_match; simplify_eq; reflexivity.
Qed.

(** ** Match.objective *)

(** The value of the objective once [create_model] has left an aligned
    model. *)
Lemma Match_objective_aligned
    (params : gmap string Param) (self self1 : Match) (m em : list F) :
  create_model params self = (Returns tt, self1) ->
  aligned self1 m em ->
  let residuals :=
    residual_sequence (mode self) (s_targ self) (serr_targ self) m em in
  Match_objective params self
  = (Returns (if decide (opt self = "lm") then PyArr residuals
              else if decide (opt self = "nelder")
                   then PyFloat (np_sum (map fpow2 residuals))
                   else PyNone), self1).
Proof.
  intros Hcm Hal residuals.
  pose proof (keeps_frame_create_model params self) as Hfr.
  rewrite Hcm in Hfr. simpl in Hfr.
  destruct (frame_fields _ _ Hfr) as (_ & Et & Eet & _ & _ & _ & Emd & Eo & _).
  rewrite Match_objective_run, Hcm, (best_residuals_aligned _ _ _ Hal).
  rewrite Et, Eet, Emd, Eo. reflexivity.
Qed.

(** C1: objective invokes create_model and then returns the residual
    sequence (target flux minus model flux, divided element by element
    by sqrt(target_err^2 + model_err^2) when mode is 'normalized') if
    the optimizer kind is 'lm', and the sum of the squared residuals if
    it is 'nelder'. *)
Theorem objective_returns_residuals_or_chi_square
    (params : gmap string Param) (self self1 : Match) (m em : list F) :
  create_model params self = (Returns tt, self1) ->
  aligned self1 m em ->
  let residuals :=
    residual_sequence (mode self) (s_targ self) (serr_targ self) m em in
  (opt self = "lm" ->
   Match_objective params self = (Returns (PyArr residuals), self1)) /\
  (opt self = "nelder" ->
   Match_objective params self
   = (Returns (PyFloat (np_sum (map fpow2 residuals))), self1)).
Proof.
  intros Hcm Hal residuals.
  rewrite (Match_objective_aligned _ _ _ _ _ Hcm Hal). fold residuals.
  split; intros Ho; rewrite Ho; reflexivity.
Qed.

(** C10: when the optimizer-kind field is neither 'lm' nor 'nelder',
    objective still runs create_model, which leaves its model in the
    object, and then falls through both branches: it returns None, and
    raises nothing. *)
Theorem objective_returns_None_on_other_kind
    (params : gmap string Param) (self self1 : Match) (m em : list F) :
  create_model params self = (Returns tt, self1) ->
  aligned self1 m em ->
  opt self <> "lm" -> opt self <> "nelder" ->
  Match_objective params self = (Returns PyNone, self1) /\
  s_mod self1 = Some m /\ serr_mod self1 = Some em.
Proof.
  intros Hcm Hal Hlm Hnm.
  rewrite (Match_objective_aligned _ _ _ _ _ Hcm Hal).
  rewrite !decide_False by done.
  destruct Hal as (Em & Ee & _). done.
Qed.

(** ** MatchLincomb.objective *)

Lemma Match_objective_lm_array
    (params : gmap string Param) (self self1 : Match) (v : PyVal) :
  opt self = "lm" ->
  Match_objective params self = (Returns v, self1) ->
  exists residuals, v = PyArr residuals.
Proof.
  intros Ho. rewrite Match_objective_run.
  pose proof (keeps_frame_create_model params self) as Hfr.
  destruct (create_model params self) as [[[]|e] s1]; [|done]. simpl in Hfr.
  pose proof (best_residuals_state s1) as Hst.
  destruct (best_residuals s1) as [[r|e] s2]; [|done]. simpl in Hst. subst s2.
  destruct (frame_fields _ _ Hfr) as (_ & _ & _ & _ & _ & _ & _ & Eo & _).
  rewrite Eo, Ho. simpl. intros [= <- <-]. by exists r.
Qed.

(** The overriding objective adds the prior to whatever the inherited
    objective returned. *)
Lemma MatchLincomb_objective_run
    (params : gmap string Param) (self self1 : Match)
    (n : nat) (rs : list (list F * list F)) (base : PyVal) (sum_coeff : F) :
  refs self = Lincomb n rs ->
  Match_objective params self = (Returns base, self1) ->
  sum_coeff_loop params (seq 0 n) (lit 0) = Returns sum_coeff ->
  MatchLincomb_objective params self
  = (py_iadd base (gaussian_prior sum_coeff), self1).
Proof.
  intros Hr Hobj Hsum.
  pose proof (keeps_frame_Match_objective params self) as Hfr.
  rewrite Hobj in Hfr. simpl in Hfr.
  destruct (frame_fields _ _ Hfr) as (_ & _ & _ & Er & _).
  unfold MatchLincomb_objective. rewrite bind_run, Hobj.
  run_meth. unfold attr_num_refs. rewrite Er, Hr, Hsum. reflexivity.
Qed.

(** C2, on the code: with the optimizer-kind field at 'lm' (the default
    of the constructor) the objective of a MatchLincomb is not a scalar.
    The inherited objective returns the residual array, and the prior
    is added to each of its elements. *)
Theorem lincomb_objective_with_lm_returns_array
    (params : gmap string Param) (self self1 : Match)
    (n : nat) (rs : list (list F * list F)) (base : PyVal) (sum_coeff : F) :
  refs self = Lincomb n rs ->
  opt self = "lm" ->
  Match_objective params self = (Returns base, self1) ->
  sum_coeff_loop params (seq 0 n) (lit 0) = Returns sum_coeff ->
  exists residuals, base = PyArr residuals /\
    MatchLincomb_objective params self
    = (Returns (PyArr (map (fun r => fadd r (gaussian_prior sum_coeff)) residuals)),
       self1).
Proof.
  intros Hr Ho Hobj Hsum.
  destruct (Match_objective_lm_array _ _ _ _ Ho Hobj) as [residuals ->].
  exists residuals. split; [done|].
  rewrite (MatchLincomb_objective_run _ _ _ _ _ _ _ Hr Hobj Hsum). reflexivity.
Qed.

(** X24: with the optimizer-kind field at 'nelder' the same objective is
    the scalar the documentation announces: the sum of the squared
    residuals plus the prior. *)
Lemma lincomb_objective_with_nelder_returns_scalar
    (params : gmap string Param) (self self1 : Match)
    (n : nat) (rs : list (list F * list F)) (m em : list F) (sum_coeff : F) :
  refs self = Lincomb n rs ->
  opt self = "nelder" ->
  create_model params self = (Returns tt, self1) ->
  aligned self1 m em ->
  sum_coeff_loop params (seq 0 n) (lit 0) = Returns sum_coeff ->
  let residuals :=
    residual_sequence (mode self) (s_targ self) (serr_targ self) m em in
  MatchLincomb_objective params self
  = (Returns (PyFloat (fadd (np_sum (map fpow2 residuals))
                         (gaussian_prior sum_coeff))), self1).
Proof.
  intros Hr Ho Hcm Hal Hsum residuals.
  pose proof (Match_objective_aligned _ _ _ _ _ Hcm Hal) as Hobj.
  cbv zeta in Hobj. rewrite Ho in Hobj. simpl in Hobj.
  rewrite (MatchLincomb_objective_run _ _ _ _ _ _ _ Hr Hobj Hsum). reflexivity.
Qed.

(** ** Fitting *)

(** C4: after best_fit of a Match, for the optimizer kinds 'lm' and
    'nelder' alike, the parameters the optimizer returned are recorded
    as best_params, the stored best chi-square is the sum of the squared
    residuals of the objective evaluated once more at those parameters,
    and best_fit returns that stored value. *)
Theorem best_fit_recomputes_chi_square
    (params : option (gmap string Param)) (self self1 self2 : Match)
    (a e : list F) (out : MinimizerResult) (m em : list F) :
  refs self = Single a e ->
  (opt self = "lm" /\
   minimize objective (Match_best_fit_params params) None self
   = (Returns out, self1)) \/
  (opt self = "nelder" /\
   minimize objective (Match_best_fit_params params) (Some "nelder") self
   = (Returns out, self1)) ->
  create_model (out_params out) self1 = (Returns tt, self2) ->
  aligned self2 m em ->
  let chi_square :=
    np_sum (map fpow2
      (residual_sequence (mode self) (s_targ self) (serr_targ self) m em)) in
  exists final,
    Match_best_fit params self = (Returns (PyFloat chi_square), final) /\
    best_chisq final = PyFloat chi_square /\
    best_params final = out_params out.
Proof.
  intros Hr Hmin Hcm Hal chi_square.
  assert (Hfr : frame self1 = frame self).
  { destruct Hmin as [[_ Hm]|[_ Hm]];
      match type of Hm with
      | minimize _ ?p ?meth _ = _ =>
          pose proof (keeps_frame_minimize p meth self) as Hfr
      end; rewrite Hm in Hfr; exact Hfr. }
  destruct (frame_fields _ _ Hfr) as (_ & Et & Eet & Er & _ & _ & Emd & Eo & _).
  assert (Hobj : objective (out_params out) self1
                 = Match_objective (out_params out) self1).
  { unfold objective. rewrite Er, Hr. reflexivity. }
  pose proof (Match_objective_aligned _ _ _ _ _ Hcm Hal) as Hval.
  cbv zeta in Hval. rewrite Et, Eet, Emd, Eo in Hval.
  unfold Match_best_fit. rewrite bind_run. unfold get at 1. cbn beta iota.
  destruct Hmin as [[Ho Hm]|[Ho Hm]]; rewrite Ho in *.
  - rewrite decide_True by done.
    rewrite !bind_run, Hm, !bind_run, Hobj, Hval.
    rewrite decide_True by done. run_meth. simpl.
    eexists. split; [reflexivity|]. split; reflexivity.
  - rewrite decide_False by done. rewrite decide_True by done.
    rewrite !bind_run, Hm, !bind_run, Hobj, Hval.
    rewrite decide_False by done. rewrite decide_True by done.
    run_meth. simpl.
    eexists. split; [reflexivity|]. split; reflexivity.
Qed.

(** C3: best_fit of a MatchLincomb runs the direct-search optimizer
    whatever the optimizer-kind field holds, records the parameters it
    returns, and stores and returns as best chi-square the value of its
    objective at those parameters, the prior term included: nothing is
    recomputed from the residuals. *)
Theorem lincomb_best_fit_stores_objective_value
    (self self0 self1 self2 : Match) (n : nat) (rs : list (list F * list F))
    (start : gmap string Param) (out : MinimizerResult)
    (base : PyVal) (sum_coeff : F) (v : PyVal) :
  refs self = Lincomb n rs ->
  add_lincomb_params ∅ self = (Returns start, self0) ->
  minimize objective start (Some "nelder") self0 = (Returns out, self1) ->
  Match_objective (out_params out) (set_best_params (out_params out) self1).2
  = (Returns base, self2) ->
  sum_coeff_loop (out_params out) (seq 0 n) (lit 0) = Returns sum_coeff ->
  py_iadd base (gaussian_prior sum_coeff) = Returns v ->
  exists final,
    MatchLincomb_best_fit self = (Returns v, final) /\
    best_chisq final = v /\
    best_params final = out_params out /\
    frame final = frame (set_best_chisq v (set_best_params (out_params out) self).2).2.
Proof.
  intros Hr Hadd Hmin Hobj Hsum Hv.
  assert (self0 = self) as ->.
  { revert Hadd. unfold add_lincomb_params. run_meth.
    unfold attr_num_refs. repeat (rewrite Hr; cbn beta iota). intros [= _ <-]. done. }
  pose proof (keeps_frame_minimize start (Some "nelder") self) as Hfr.
  rewrite Hmin in Hfr. simpl in Hfr.
  destruct (frame_fields _ _ Hfr) as (Ew & Et & Eet & Er & _ & Ec & Emd & Eo & Ek).
  set (self1' := (set_best_params (out_params out) self1).2) in *.
  assert (Hr1 : refs self1' = Lincomb n rs)
    by (subst self1'; unfold set_best_params; simpl; congruence).
  assert (Hobj' : objective (out_params out) self1' = (Returns v, self2)).
  { unfold objective. rewrite Hr1.
    rewrite (MatchLincomb_objective_run _ _ _ n rs _ _ Hr1 Hobj Hsum).
    rewrite Hv. reflexivity. }
  pose proof (keeps_frame_Match_objective (out_params out) self1') as Hfr2.
  rewrite Hobj in Hfr2. simpl in Hfr2.
  destruct (frame_fields _ _ Hfr2) as (Ew2 & Et2 & Eet2 & Er2 & Ep2 & Ec2 & Emd2 & Eo2 & Ek2).
  unfold MatchLincomb_best_fit. cbv zeta. rewrite bind_run, Hadd, bind_run, Hmin.
  run_meth. cbn [best_params].
  unfold self1', set_best_params in Hobj'. cbn [snd] in Hobj'.
  rewrite Hobj'. cbn beta iota.
  eexists. split; [reflexivity|]. cbn [best_chisq best_params].
  split; [done|]. split; [done|].
  subst self1'. unfold frame, set_best_params in *. cbn in *. congruence.
Qed.

(** ** Two runs of a method *)

Lemma Match_ext (a b : Match) :
  frame a = frame b -> s_mod a = s_mod b -> serr_mod a = serr_mod b ->
  spl a = spl b -> a = b.
Proof. destruct a, b. unfold frame. cbn. intros [=] -> -> ->. by subst. Qed.

Lemma untouched_trans (k1 k2 : nat) (s s1 s2 : Match) :
  k1 <= k2 -> untouched k1 s s1 -> untouched k2 s1 s2 -> untouched k2 s s2.
Proof.
  unfold untouched. intros Hk (A1 & A2 & A3) (B1 & B2 & B3).
  repeat split; intros Hlt;
    [rewrite B1, A1|rewrite B2, A2|rewrite B3, A3]; (done || lia).
Qed.

Lemma two_runs_bind {A B} (n n1 n2 : nat) (c : Meth A) (k : A -> Meth B) :
  two_runs n c n1 -> (forall x, two_runs n1 (k x) n2) ->
  two_runs n (c ≫= k) n2.
Proof.
  intros Hc Hk a b Hab. rewrite !bind_run.
  destruct (Hc a b Hab) as (E & k1 & Hle & Hal & Ua & Ub & Hret).
  destruct (c a) as [[x|e] a1], (c b) as [[y|e'] b1]; simpl in *; simplify_eq.
  - specialize (Hret y eq_refl). subst k1.
    destruct (Hk y a1 b1 Hal) as (E2 & k2 & Hle2 & Hal2 & Ua2 & Ub2 & Hret2).
    split; [done|]. exists k2. split; [lia|]. split; [done|].
    split; [by eapply untouched_trans|]. split; [by eapply untouched_trans|].
    done.
  - split; [done|]. exists k1. do 4 (split; [done|]). intros x [=].
Qed.

Lemma two_runs_pure {A} (n : nat) (c : Meth A) (f : Match -> Outcome A) :
  (forall s, c s = (f s, s)) ->
  (forall a b, alike n a b -> f a = f b) ->
  two_runs n c n.
Proof.
  intros Hc Hf a b Hab. rewrite !Hc. simpl. split; [by apply Hf|].
  exists n. split; [done|]. split; [done|]. by repeat split.
Qed.

Lemma two_runs_ret {A} (n : nat) (x : A) : two_runs n (mret x : Meth A) n.
Proof. by apply (two_runs_pure n _ (fun _ => Returns x)). Qed.

Lemma two_runs_call {A} (n : nat) (o : Outcome A) : two_runs n (call o : Meth A) n.
Proof. by apply (two_runs_pure n _ (fun _ => o)). Qed.

(** Reading what construction fixed. *)
Lemma two_runs_get {A} (n : nat) (attr : Match -> A) :
  (forall s, attr s = attr (frame s)) -> two_runs n (get attr) n.
Proof.
  intros Hattr. apply (two_runs_pure n _ (fun s => Returns (attr s))); [done|].
  intros a b [Hf _]. by rewrite (Hattr a), (Hattr b), Hf.
Qed.

Lemma two_runs_getattr_frame {A} (n : nat) name (attr : Match -> option A) :
  (forall s, attr s = attr (frame s)) -> two_runs n (getattr name attr) n.
Proof.
  intros Hattr.
  apply (two_runs_pure n _
           (fun s => match attr s with
                     | Some x => Returns x
                     | None => Raises (AttributeError name)
                     end)).
  - intros s. unfold getattr. by destruct (attr s).
  - intros a b [Hf _]. by rewrite (Hattr a), (Hattr b), Hf.
Qed.

(** Reading the trial model once it has been assigned. *)
Lemma two_runs_getattr_s_mod (n : nat) name :
  1 <= n -> two_runs n (getattr name (@s_mod F)) n.
Proof.
  intros Hn.
  apply (two_runs_pure n _
           (fun s => match s_mod s with
                     | Some x => Returns x
                     | None => Raises (AttributeError name)
                     end)).
  - intros s. unfold getattr. by destruct (s_mod s).
  - intros a b (_ & E & _). by rewrite (E Hn).
Qed.

Lemma two_runs_getattr_serr_mod (n : nat) name :
  2 <= n -> two_runs n (getattr name (@serr_mod F)) n.
Proof.
  intros Hn.
  apply (two_runs_pure n _
           (fun s => match serr_mod s with
                     | Some x => Returns x
                     | None => Raises (AttributeError name)
                     end)).
  - intros s. unfold getattr. by destruct (serr_mod s).
  - intros a b (_ & _ & E & _). by rewrite (E Hn).
Qed.

Lemma two_runs_getattr_spl (n : nat) name :
  3 <= n -> two_runs n (getattr name (@spl F)) n.
Proof.
  intros Hn.
  apply (two_runs_pure n _
           (fun s => match spl s with
                     | Some x => Returns x
                     | None => Raises (AttributeError name)
                     end)).
  - intros s. unfold getattr. by destruct (spl s).
  - intros a b (_ & _ & _ & E). by rewrite (E Hn).
Qed.

(** Assigning the trial model. *)
Lemma two_runs_set_s_mod (n : nat) (v : list F) :
  two_runs n (set_s_mod v) (n `max` 1).
Proof.
  intros a b (Hf & E1 & E2 & E3). split; [done|].
  exists (n `max` 1). split; [lia|].
  unfold alike, untouched, frame in *. cbn.
  repeat split; intros; try done; try lia; auto with lia.
Qed.

Lemma two_runs_set_serr_mod (n : nat) (v : list F) :
  1 <= n -> two_runs n (set_serr_mod v) (n `max` 2).
Proof.
  intros Hn a b (Hf & E1 & E2 & E3). split; [done|].
  exists (n `max` 2). split; [lia|].
  unfold alike, untouched, frame in *. cbn.
  repeat split; intros; try done; try lia; auto with lia.
Qed.

Lemma two_runs_set_spl (n : nat) (v : list F) :
  2 <= n -> two_runs n (set_spl v) (n `max` 3).
Proof.
  intros Hn a b (Hf & E1 & E2 & E3). split; [done|].
  exists (n `max` 3). split; [lia|].
  unfold alike, untouched, frame in *. cbn.
  repeat split; intros; try done; try lia; auto with lia.
Qed.

Lemma two_runs_decide {A} (n n' : nat) (P : Prop) `{Decision P} (c d : Meth A) :
  two_runs n c n' -> two_runs n d n' -> two_runs n (if decide P then c else d) n'.
Proof. destruct (decide P); done. Qed.

Lemma two_runs_cast {A} (n n' m : nat) (c : Meth A) :
  two_runs n c n' -> n' = m -> two_runs n c m.
Proof. by intros ? <-. Qed.

(** A method can be started later than it needs to be. *)
Lemma two_runs_weaken {A} (n m n' : nat) (c : Meth A) :
  two_runs n c n' -> n <= m -> m <= n' -> two_runs m c n'.
Proof.
  intros Hc Hnm Hmn a b (Hf & E1 & E2 & E3).
  destruct (Hc a b) as
    (E & k & Hle & (Hf' & A1 & A2 & A3) & (Ua1 & Ua2 & Ua3) & (Ub1 & Ub2 & Ub3) & Hret).
  { repeat split; auto with lia. }
  split; [done|]. exists (k `max` m). split; [lia|].
  split; [|split; [|split]].
  - split; [done|]. repeat split; intros Hi.
    + destruct (decide (1 <= k)); [auto|].
      rewrite Ua1, Ub1 by lia. apply E1. lia.
    + destruct (decide (2 <= k)); [auto|].
      rewrite Ua2, Ub2 by lia. apply E2. lia.
    + destruct (decide (3 <= k)); [auto|].
      rewrite Ua3, Ub3 by lia. apply E3. lia.
  - repeat split; intros Hi; auto with lia.
  - repeat split; intros Hi; auto with lia.
  - intros x Hx. specialize (Hret x Hx). lia.
Qed.

(** Run again on the object it left, a method that needs no trial model
    to start with does what it did and leaves the object as it is. *)
Lemma two_runs_idempotent {A} (n' : nat) (c : Meth A) :
  two_runs 0 c n' -> keeps_frame c -> forall s, c (c s).2 = c s.
Proof.
  intros Hc Hfr s.
  destruct (Hc s (c s).2) as
    (E & k & _ & (Hf' & A1 & A2 & A3) & _ & (Ub1 & Ub2 & Ub3) & _).
  { split; [by rewrite Hfr|]. repeat split; lia. }
  destruct (c (c s).2) as [o s2] eqn:Erun. simpl in *.
  rewrite (surjective_pairing (c s)). f_equal; [done|].
  apply Match_ext.
  - done.
  - destruct (decide (1 <= k)); [symmetry; auto | apply Ub1; lia].
  - destruct (decide (2 <= k)); [symmetry; auto | apply Ub2; lia].
  - destruct (decide (3 <= k)); [symmetry; auto | apply Ub3; lia].
Qed.

Ltac two_steps :=
  repeat first
    [ eapply two_runs_bind; [|intros ?]
    | apply two_runs_decide
    | apply two_runs_ret
    | apply two_runs_call
    | apply two_runs_get; intros ?; reflexivity
    | apply two_runs_getattr_s_mod; lia
    | apply two_runs_getattr_serr_mod; lia
    | apply two_runs_getattr_spl; lia
    | apply two_runs_getattr_frame; intros ?; reflexivity
    | apply two_runs_set_s_mod
    | apply two_runs_set_serr_mod; lia
    | apply two_runs_set_spl; lia ].

Lemma two_runs_broaden (n : nat) (vsini : F) (spec : list F) :
  two_runs n (broaden vsini spec) n.
Proof. unfold broaden. two_steps. Qed.

Lemma two_runs_fit_continuum : two_runs 2 fit_continuum 3.
Proof.
  unfold fit_continuum. eapply two_runs_cast; [two_steps | reflexivity].
Qed.

Lemma two_runs_Match_create_model (params : gmap string Param) :
  two_runs 0 (Match_create_model params) 3.
Proof.
  unfold Match_create_model.
  eapply two_runs_cast;
    [ repeat first [ apply two_runs_fit_continuum
                   | apply two_runs_broaden
                   | progress two_steps ]
    | reflexivity ].
Qed.

Lemma two_runs_lincomb_loop (params : gmap string Param) (idxs : list nat) :
  two_runs 2 (lincomb_loop params idxs) 2.
Proof.
  induction idxs as [|i rest IH]; simpl; [apply two_runs_ret|].
  unfold s_refs_row.
  eapply two_runs_cast;
    [ repeat first [ apply IH | progress two_steps ] | reflexivity ].
Qed.

Lemma two_runs_MatchLincomb_create_model (params : gmap string Param) :
  two_runs 0 (MatchLincomb_create_model params) 3.
Proof.
  unfold MatchLincomb_create_model.
  eapply two_runs_cast;
    [ repeat first [ apply two_runs_fit_continuum
                   | apply two_runs_lincomb_loop
                   | progress two_steps ]
    | reflexivity ].
Qed.

(** The method of the class is chosen by the frame, so both runs take
    the same one. *)
Lemma two_runs_create_model (params : gmap string Param) :
  two_runs 0 (create_model params) 3.
Proof.
  intros a b Hab. pose proof Hab as [Hf _].
  destruct (frame_fields _ _ Hf) as (_ & _ & _ & Er & _).
  unfold create_model. rewrite <- Er. destruct (refs a).
  - by apply two_runs_Match_create_model.
  - by apply two_runs_MatchLincomb_create_model.
Qed.

Lemma two_runs_Match_objective (params : gmap string Param) :
  two_runs 0 (Match_objective params) 3.
Proof.
  unfold Match_objective.
  eapply two_runs_cast;
    [ repeat first [ apply two_runs_create_model | progress two_steps ]
    | reflexivity ].
Qed.

(** ** Determinism *)

(** C9: create_model followed by objective, invoked twice in a row with
    the same parameters on an otherwise unchanged object, does the same
    both times: the second invocation returns (or raises) what the first
    did, the residuals included, and leaves the object as the first
    left it. *)
Theorem create_model_then_objective_deterministic
    (params : gmap string Param) (self : Match) :
  let invocation : Meth PyVal :=
    create_model params;; Match_objective params in
  invocation (invocation self).2 = invocation self /\
  best_residuals (invocation (invocation self).2).2
  = best_residuals (invocation self).2.
Proof.
  intros invocation.
  assert (E : invocation (invocation self).2 = invocation self).
  { apply (two_runs_idempotent 3).
    - unfold invocation. eapply two_runs_bind; [apply two_runs_create_model|].
      intros _. eapply two_runs_weaken;
        [apply two_runs_Match_objective | lia | lia].
    - unfold invocation. apply keeps_frame_bind; [|intros _].
      + apply keeps_frame_create_model.
      + apply keeps_frame_Match_objective. }
  split; [exact E|]. by rewrite E.
Qed.

(** * Further properties of the module *)

(** ** Construction on short grids *)

Lemma spline_knots_empty : spline_knots ([] : list F) = Raises IndexError.
Proof. reflexivity. Qed.

(** X1: construction of a Match raises exactly when the wavelength grid
    is empty, and what it raises then is the IndexError of reading
    w[0]. *)
Theorem Match_init_raises_iff_grid_empty
    (wav : list F) (targ ref : list F * list F) (md o : string) :
  (Match_init wav targ ref md o = Raises IndexError <-> wav = []) /\
  (forall e, Match_init wav targ ref md o = Raises e -> e = IndexError).
Proof.
  destruct wav as [|x wav].
  - unfold Match_init. rewrite spline_knots_empty. simpl.
    split; [done|]. by intros e [= <-].
  - destruct (spline_knots_returns (x :: wav) ltac:(simpl; lia)) as (ks & E & _).
    unfold Match_init. rewrite E. simpl. split; [split; done|done].
Qed.

(** X2: on a grid of one to five points the interval is 0, so all five
    knots are the first grid value: a degenerate knot set is computed
    and stored without any error. *)
Theorem Match_init_short_grid_repeats_first_point
    (wav : list F) (targ ref : list F * list F) (md o : string) (w0 : F) :
  wav !! 0 = Some w0 -> length wav < 6 ->
  exists self, Match_init wav targ ref md o = Returns self /\
    knot_x self = replicate 5 w0.
Proof.
  intros Hw0 Hlen.
  assert (Hi : interval wav = 0)
    by (unfold interval, num_knots; change (5 + 1) with 6;
        by apply Nat.div_small).
  unfold Match_init, spline_knots, num_knots. simpl.
  rewrite Hi. simpl. unfold getitem. rewrite Hw0. simpl.
  eexists. split; reflexivity.
Qed.

(** ** Construction of a MatchLincomb *)

Lemma Outcome_bind_returns {A B} (c : Outcome A) (k : A -> Outcome B) (y : B) :
  c ≫= k = Returns y -> exists x, c = Returns x /\ k x = Returns y.
Proof. destruct c as [x|e]; simpl; [eauto | done]. Qed.

Lemma np_assign_length (row r r' : list F) :
  np_assign row r = Returns r' -> length r' = length row.
Proof.
  unfold np_assign. destruct (decide (length r = length row)).
  - by intros [= <-].
  - destruct r as [|y [|]]; intros [=]. subst. by rewrite length_replicate.
Qed.

(** The shape of the reference array: the lengths of the flux and of
    the uncertainty of each reference. *)
Lemma broaden_refs_shape (wav vsini : list F) (idxs : list nat)
    (rs rs' : list (list F * list F)) :
  broaden_refs wav vsini idxs rs = Returns rs' ->
  (fun r => (length r.1, length r.2)) <$> rs'
  = (fun r => (length r.1, length r.2)) <$> rs.
Proof.
  revert rs. induction idxs as [|i rest IH]; intros rs; simpl.
  - by intros [= <-].
  - intros Hrun.
    apply Outcome_bind_returns in Hrun as (v & _ & Hrun).
    apply Outcome_bind_returns in Hrun as (row & Hrow & Hrun).
    apply Outcome_bind_returns in Hrun as (b & _ & Hrun).
    apply Outcome_bind_returns in Hrun as (r & Hr & Hrun).
    apply Outcome_bind_returns in Hrun as (v' & _ & Hrun).
    apply Outcome_bind_returns in Hrun as (row' & Hrow' & Hrun).
    apply Outcome_bind_returns in Hrun as (b' & _ & Hrun).
    apply Outcome_bind_returns in Hrun as (r' & Hr' & Hrun).
    apply IH in Hrun. rewrite Hrun.
    apply np_assign_length in Hr, Hr'.
    unfold getitem in Hrow, Hrow'.
    destruct (rs !! i) as [row0|] eqn:Ei; [|done]. simplify_eq.
    rewrite list_lookup_insert_eq in Hrow'
      by (by eapply lookup_lt_Some). simplify_eq. simpl in *.
    rewrite !list_fmap_insert. simpl. rewrite Hr, Hr'.
    rewrite list_insert_insert_eq.
    apply list_insert_id. rewrite list_lookup_fmap, Ei. done.
Qed.

(** X3: when construction of a MatchLincomb returns, num_refs is the
    number of references passed, and the stored, broadened reference
    array has the shape of the one passed: as many references, each
    with flux and uncertainty of the lengths they came with. *)
Theorem MatchLincomb_init_keeps_shape
    (wav : list F) (targ : list F * list F) (s_refs : list (list F * list F))
    (vsini : list F) (md o : string) (self : Match) :
  MatchLincomb_init wav targ s_refs vsini md o = Returns self ->
  exists stored, refs self = Lincomb (length s_refs) stored /\
    length stored = length s_refs /\
    forall i r, stored !! i = Some r ->
      exists r0, s_refs !! i = Some r0 /\
        length r.1 = length r0.1 /\ length r.2 = length r0.2.
Proof.
  unfold MatchLincomb_init. intros Hrun.
  apply Outcome_bind_returns in Hrun as (stored & Hb & Hrun).
  apply Outcome_bind_returns in Hrun as (ks & _ & Hrun).
  injection Hrun as <-. simpl. exists stored. split; [done|].
  apply broaden_refs_shape in Hb.
  split.
  - apply (f_equal length) in Hb. by rewrite !length_fmap in Hb.
  - intros i r Hi.
    apply (f_equal (fun l => l !! i)) in Hb. rewrite !list_lookup_fmap, Hi in Hb.
    destruct (s_refs !! i) as [r0|]; [|done]. simpl in Hb.
    injection Hb as E1 E2. eauto.
Qed.

Lemma broaden_refs_short_vsini (wav vsini : list F) (idxs : list nat)
    (rs : list (list F * list F)) (i : nat) :
  i ∈ idxs -> length vsini <= i ->
  exists e, broaden_refs wav vsini idxs rs = Raises e.
Proof.
  intros Hin Hle. revert rs.
  induction idxs as [|j rest IH]; intros rs; [by apply elem_of_nil in Hin|].
  simpl. destruct (getitem vsini j) as [v|e] eqn:Ev; simpl; [|eauto].
  assert (Hin' : i ∈ rest).
  { apply elem_of_cons in Hin as [->|]; [|done].
    unfold getitem in Ev. rewrite (lookup_ge_None_2 vsini j) in Ev by done.
    done. }
  repeat match goal with
         | |- exists e, (?c ≫= _) = Raises e =>
             destruct c; simpl; [|eauto]
         end.
  by apply IH.
Qed.

(** X4: a vsini list shorter than the reference list is not accepted:
    construction of a MatchLincomb raises. *)
Theorem MatchLincomb_init_short_vsini_raises
    (wav : list F) (targ : list F * list F) (s_refs : list (list F * list F))
    (vsini : list F) (md o : string) :
  length vsini < length s_refs ->
  exists e, MatchLincomb_init wav targ s_refs vsini md o = Raises e.
Proof.
  intros Hlt. unfold MatchLincomb_init.
  destruct (broaden_refs_short_vsini wav vsini (seq 0 (length s_refs)) s_refs
              (length vsini)) as [e He].
  - apply elem_of_seq. lia.
  - done.
  - exists e. rewrite He. done.
Qed.

Lemma getitem_ge {A} (a : list A) (k : nat) :
  length a <= k -> getitem a k = Raises IndexError.
Proof. intros Hk. unfold getitem. by rewrite lookup_ge_None_2. Qed.

Lemma broaden_grid_short (wav : list F) (vsini : F) (spec : list F) :
  length wav < 2 -> broaden_grid wav vsini spec = Raises IndexError.
Proof.
  intros Hlen. unfold broaden_grid.
  destruct wav as [|x [|y wav]]; simpl in *; [done|done|lia].
Qed.

(** X5: with at least one reference, a grid of fewer than two points
    makes construction of a MatchLincomb raise IndexError: broadening
    reads w[1] and w[0]. *)
Theorem MatchLincomb_init_needs_two_grid_points
    (wav : list F) (targ : list F * list F) (s_refs : list (list F * list F))
    (vsini : list F) (md o : string) :
  length wav < 2 -> s_refs <> [] ->
  MatchLincomb_init wav targ s_refs vsini md o = Raises IndexError.
Proof.
  intros Hlen Hne. destruct s_refs as [|r rest]; [done|].
  unfold MatchLincomb_init. simpl.
  destruct (getitem vsini 0) as [v|e] eqn:Ev; simpl.
  - rewrite !broaden_grid_short by done. done.
  - unfold getitem in Ev. destruct (vsini !! 0); by simplify_eq.
Qed.

(** X6: with no reference at all, construction of a MatchLincomb
    broadens nothing and ignores vsini: on any non-empty grid it returns
    an object with num_refs = 0. *)
Theorem MatchLincomb_init_without_references
    (wav : list F) (targ : list F * list F) (vsini : list F) (md o : string) :
  wav <> [] ->
  exists self, MatchLincomb_init wav targ [] vsini md o = Returns self /\
    refs self = Lincomb 0 [] /\ w self = wav.
Proof.
  intros Hne.
  assert (0 < length wav) as Hn by (destruct wav; [done | simpl; lia]).
  destruct (spline_knots_returns wav Hn) as (ks & E & _).
  unfold MatchLincomb_init. simpl. rewrite E. simpl.
  eexists. repeat split; reflexivity.
Qed.

(** ** broaden *)

(** X7: on an object whose grid has fewer than two points broaden raises
    IndexError, whatever the velocity and the spectrum, before any
    kernel is built; the object is left as it was. *)
Theorem broaden_needs_two_grid_points
    (vsini : F) (spec : list F) (self : Match) :
  length (w self) < 2 ->
  broaden vsini spec self = (Raises IndexError, self).
Proof.
  intros Hlen. unfold broaden. run_meth.
  rewrite broaden_grid_short by done. reflexivity.
Qed.

(** X8: of the wavelength grid, broaden reads the first two samples
    only: on two objects whose grids start with the same two samples it
    returns (or raises) the same, whatever else they hold.  It assigns
    nothing. *)
Theorem broaden_reads_first_two_samples
    (vsini : F) (spec : list F) (self self' : Match) :
  w self !! 0 = w self' !! 0 ->
  w self !! 1 = w self' !! 1 ->
  (broaden vsini spec self).1 = (broaden vsini spec self').1 /\
  (broaden vsini spec self).2 = self.
Proof.
  intros E0 E1. unfold broaden. run_meth. split; [|done]. simpl.
  unfold broaden_grid, getitem. by rewrite E0, E1.
Qed.

(** ** create_model *)

Lemma bind_returns {A B} (c : Meth A) (k : A -> Meth B)
    (s s' : Match) (y : B) :
  (c ≫= k) s = (Returns y, s') ->
  exists x s1, c s = (Returns x, s1) /\ k x s1 = (Returns y, s').
Proof.
  rewrite bind_run. destruct (c s) as [[x|e] s1]; [eauto | done].
Qed.

Lemma getattr_returns {A} name (attr : Match -> option A)
    (s s' : Match) (x : A) :
  getattr name attr s = (Returns x, s') -> attr s = Some x /\ s' = s.
Proof. unfold getattr. destruct (attr s); by intros [= <- <-]. Qed.

Lemma call_returns {A} (o : Outcome A) (s s' : Match) (x : A) :
  call o s = (Returns x, s') -> o = Returns x /\ s' = s.
Proof. unfold call. by intros [= -> <-]. Qed.

Lemma get_returns {A} (attr : Match -> A) (s s' : Match) (x : A) :
  get attr s = (Returns x, s') -> x = attr s /\ s' = s.
Proof. unfold get. by intros [= <- <-]. Qed.

(** Taking a returning run apart, statement by statement. *)
Ltac invert_run H :=
  repeat first
    [ let x := fresh "x" in let s := fresh "s" in let H1 := fresh "Hstep" in
      apply bind_returns in H as (x & s & H1 & H);
      first [ apply getattr_returns in H1 as [H1 ->]
            | apply call_returns in H1 as [H1 ->]
            | apply get_returns in H1 as [-> ->]
            | idtac ] ].

(** What a returning continuum step leaves: the continuum, and the
    model it found multiplied by it. *)
Lemma fit_continuum_returns (s s1 : Match) :
  fit_continuum s = (Returns tt, s1) ->
  exists m0 e0 c m em,
    s_mod s = Some m0 /\ serr_mod s = Some e0 /\
    np_iop fmul m0 c = Returns m /\ np_iop fmul e0 c = Returns em /\
    s_mod s1 = Some m /\ serr_mod s1 = Some em /\ spl s1 = Some c.
Proof.
  unfold fit_continuum. intros Hrun. invert_run Hrun.
  unfold set_spl, set_s_mod, set_serr_mod in *. simplify_eq. cbn in *.
  simplify_eq. eauto 12.
Qed.

Ltac invert_to_fit H :=
  repeat (lazymatch type of H with
          | fit_continuum _ = _ => fail
          | _ => idtac
          end;
          let x := fresh "x" in let s := fresh "s" in let H1 := fresh "Hstep" in
          apply bind_returns in H as (x & s & H1 & H);
          first [ apply getattr_returns in H1 as [H1 ->]
                | apply call_returns in H1 as [H1 ->]
                | apply get_returns in H1 as [-> ->]
                | idtac ]).

(** A returning [create_model], of either class, ends with a returning
    continuum step. *)
Lemma create_model_ends_with_fit (params : gmap string Param) (s s1 : Match) :
  create_model params s = (Returns tt, s1) ->
  exists s0, fit_continuum s0 = (Returns tt, s1).
Proof.
  unfold create_model. destruct (refs s).
  - unfold Match_create_model. intros Hrun. invert_to_fit Hrun. eauto.
  - unfold MatchLincomb_create_model. intros Hrun. invert_to_fit Hrun. eauto.
Qed.

Lemma np_binop_raises (f : F -> F -> F) (a b : list F) (e : Exn) :
  np_binop f a b = Raises e -> e = ValueError.
Proof.
  unfold np_binop. repeat case_match; by intros [=].
Qed.

Lemma best_residuals_raises (s : Match) (m em : list F) (e : Exn) :
  s_mod s = Some m -> serr_mod s = Some em ->
  (best_residuals s).1 = Raises e -> e = ValueError.
Proof.
  intros Em Ee. unfold best_residuals. run_meth.
  destruct (decide (mode s = "normalized")); cbn beta iota; rewrite Em.
  - destruct (np_binop fsub (s_targ s) m) eqn:E1; cbn;
      [|intros [= <-]; by eapply np_binop_raises].
    rewrite Ee.
    destruct (np_binop fadd (map fpow2 (serr_targ s)) (map fpow2 em)) eqn:E2;
      cbn; [|intros [= <-]; by eapply np_binop_raises].
    apply np_binop_raises.
  - cbn. apply np_binop_raises.
Qed.

(** X9: once create_model has returned, for a Match and a MatchLincomb
    alike, s_mod, serr_mod and spl all exist, so best_residuals no
    longer fails for a missing attribute: the only error left to it is
    the ValueError of arrays whose shapes do not fit. *)
Theorem best_residuals_after_create_model
    (params : gmap string Param) (self self1 : Match) :
  create_model params self = (Returns tt, self1) ->
  is_Some (s_mod self1) /\ is_Some (serr_mod self1) /\ is_Some (spl self1) /\
  forall e, (best_residuals self1).1 = Raises e -> e = ValueError.
Proof.
  intros Hrun.
  destruct (create_model_ends_with_fit _ _ _ Hrun) as (s0 & Hfit).
  destruct (fit_continuum_returns _ _ Hfit)
    as (m0 & e0 & c & m & em & _ & _ & _ & _ & Em & Ee & Ec).
  rewrite Em, Ee, Ec. repeat split; try done.
  intros e. by apply (best_residuals_raises _ m em).
Qed.

(** X10: a parameter container without 'vsini' makes create_model of a
    Match raise KeyError, but only after the model has been assigned:
    the object is left holding the unbroadened reference as its model,
    and its continuum as it was. *)
Theorem create_model_without_vsini
    (params : gmap string Param) (self : Match) (a e : list F) :
  refs self = Single a e ->
  params !! "vsini" = None ->
  exists self1,
    create_model params self = (Raises (KeyError "vsini"), self1) /\
    s_mod self1 = Some a /\ serr_mod self1 = Some e /\
    spl self1 = spl self /\ frame self1 = frame self.
Proof.
  intros Hr Hp. destruct self. cbn in Hr. subst.
  unfold create_model, Match_create_model. run_meth.
  unfold attr_s_ref, attr_serr_ref, getparam. cbn. rewrite Hp. cbn.
  eexists. split; [reflexivity|]. by repeat split.
Qed.

Lemma np_binop_mismatch (f : F -> F -> F) (a b : list F) :
  length a <> length b -> length a <> 1 -> length b <> 1 ->
  np_binop f a b = Raises ValueError.
Proof.
  intros Hab Ha Hb. unfold np_binop. rewrite decide_False by done.
  destruct a as [|x [|]], b as [|y [|]]; simpl in *; done.
Qed.

(** X11: a target whose length differs from that of the broadened
    reference, neither being a single sample, is found out at the first
    create_model of a Match: dividing the target by the model raises
    ValueError, and the object is left with the broadened reference as
    its model and no new continuum. *)
Theorem create_model_length_mismatch
    (params : gmap string Param) (self : Match) (a e : list F)
    (p : Param) (b be : list F) :
  refs self = Single a e ->
  params !! "vsini" = Some p ->
  broaden_grid (w self) (value p) a = Returns b ->
  broaden_grid (w self) (value p) e = Returns be ->
  length (s_targ self) <> length b ->
  length (s_targ self) <> 1 -> length b <> 1 ->
  exists self1,
    create_model params self = (Raises ValueError, self1) /\
    s_mod self1 = Some b /\ serr_mod self1 = Some be /\
    spl self1 = spl self /\ frame self1 = frame self.
Proof.
  intros Hr Hp Hb Hbe Hlen Ht H1. destruct self. cbn in *. subst.
  unfold create_model, Match_create_model, broaden, fit_continuum. run_meth.
  unfold attr_s_ref, attr_serr_ref, getparam. cbn.
  rewrite Hp. cbn. rewrite Hb. cbn. rewrite Hbe. cbn.
  rewrite np_binop_mismatch by done. cbn.
  eexists. split; [reflexivity|]. by repeat split.
Qed.

(** ** objective and best_residuals *)

(** X12: create_model, objective (of either class) and best_residuals
    never touch what construction fixed nor the fit results: grid,
    target, references, knots, mode, optimizer kind, best_params and
    best_chisq are after the call what they were before, whether the
    call returns or raises; best_residuals assigns nothing at all. *)
Theorem objective_assigns_only_the_trial_model
    (params : gmap string Param) (self : Match) :
  frame (create_model params self).2 = frame self /\
  frame (objective params self).2 = frame self /\
  (best_residuals self).2 = self.
Proof.
  split; [apply keeps_frame_create_model|].
  split; [apply keeps_frame_objective|].
  apply best_residuals_state.
Qed.

(** What the objective of [Match] returns, in terms of the residuals
    [best_residuals] computes on the object it leaves. *)
Lemma Match_objective_returns (params : gmap string Param)
    (self self1 : Match) (v : PyVal) :
  Match_objective params self = (Returns v, self1) ->
  exists residuals,
    best_residuals self1 = (Returns residuals, self1) /\
    v = (if decide (opt self = "lm") then PyArr residuals
         else if decide (opt self = "nelder")
              then PyFloat (np_sum (map fpow2 residuals))
              else PyNone).
Proof.
  rewrite Match_objective_run.
  pose proof (keeps_frame_create_model params self) as Hfr.
  destruct (create_model params self) as [[[]|e] s1]; [|done]. simpl in Hfr.
  pose proof (best_residuals_state s1) as Hst.
  destruct (best_residuals s1) as [[r|e] s2] eqn:Er; [|done].
  simpl in Hst. subst s2.
  destruct (frame_fields _ _ Hfr) as (_ & _ & _ & _ & _ & _ & _ & Eo & _).
  rewrite Eo. intros [= <- <-]. exists r. by rewrite Er.
Qed.

(** X13: best_residuals called right after objective of a Match has
    returned gives the very residuals that call was computed from: the
    array it returned for the kind 'lm', the array whose squares sum to
    the number it returned for the kind 'nelder'. *)
Theorem best_residuals_after_objective
    (params : gmap string Param) (self self1 : Match) (v : PyVal) :
  Match_objective params self = (Returns v, self1) ->
  exists residuals,
    best_residuals self1 = (Returns residuals, self1) /\
    (opt self = "lm" -> v = PyArr residuals) /\
    (opt self = "nelder" -> v = PyFloat (np_sum (map fpow2 residuals))).
Proof.
  intros Hrun.
  destruct (Match_objective_returns _ _ _ _ Hrun) as (r & Er & ->).
  exists r. split; [done|].
  split; intros Ho; rewrite Ho; reflexivity.
Qed.

(** ** Match.best_fit *)

Lemma best_fit_unknown_kind_raises_aux
    (params : option (gmap string Param)) (self : Match) :
  opt self <> "lm" -> opt self <> "nelder" ->
  Match_best_fit params self = (Raises (UnboundLocalError "out"), self).
Proof.
  intros Hlm Hnm. unfold Match_best_fit. run_meth.
  rewrite !decide_False by done. reflexivity.
Qed.

(** X14: with an optimizer kind that is neither 'lm' nor 'nelder',
    best_fit of a Match runs no optimizer and assigns nothing: it raises
    UnboundLocalError on the variable out, and the object is as it was. *)
Theorem best_fit_unknown_kind_raises
    (params : option (gmap string Param)) (self : Match) :
  opt self <> "lm" -> opt self <> "nelder" ->
  Match_best_fit params self = (Raises (UnboundLocalError "out"), self).
Proof. apply best_fit_unknown_kind_raises_aux. Qed.

Lemma best_residuals_ignores_best_chisq (v : PyVal) (s : Match) :
  best_residuals (set_best_chisq v s).2
  = ((best_residuals s).1, (set_best_chisq v s).2).
Proof.
  destruct s as [? ? ? ? ? ? md ? ? ? ? ?].
  unfold best_residuals, set_best_chisq. run_meth. cbn.
  destruct (decide (md = "normalized")); cbn;
    repeat (case_match; cbn in *; simplify_eq); reflexivity.
Qed.

Lemma best_residuals_ignores_best_params (v : gmap string Param) (s : Match) :
  best_residuals (set_best_params v s).2
  = ((best_residuals s).1, (set_best_params v s).2).
Proof.
  destruct s as [? ? ? ? ? ? md ? ? ? ? ?].
  unfold best_residuals, set_best_params. run_meth. cbn.
  destruct (decide (md = "normalized")); cbn;
    repeat (case_match; cbn in *; simplify_eq); reflexivity.
Qed.

(** How a run of [Match.best_fit] goes, for the two kinds it knows. *)
Lemma Match_best_fit_run (params : option (gmap string Param)) (self : Match) :
  opt self = "lm" \/ opt self = "nelder" ->
  Match_best_fit params self =
  match minimize objective (Match_best_fit_params params)
          (if decide (opt self = "lm") then None else Some "nelder") self
        return Outcome PyVal * Match with
  | (Returns out, s1) =>
      match objective (out_params out) s1 return Outcome PyVal * Match with
      | (Returns r, s2) =>
          match (if decide (opt self = "lm") then py_pow2 r ≫= py_sum
                 else Returns r) with
          | Returns c =>
              (Returns c,
               (set_best_params (out_params out) (set_best_chisq c s2).2).2)
          | Raises e => (Raises e, s2)
          end
      | (Raises e, s2) => (Raises e, s2)
      end
  | (Raises e, s1) => (Raises e, s1)
  end.
Proof.
  intros Ho. unfold Match_best_fit. rewrite bind_run. unfold get at 1.
  cbn beta iota.
  destruct (decide (opt self = "lm")) as [Hlm|Hlm].
  - rewrite !bind_run.
    destruct (minimize _ _ _ self) as [[out|e] s1]; [|done].
    rewrite !bind_run.
    destruct (objective _ s1) as [[r|e] s2]; [|done].
    destruct (py_pow2 r ≫= py_sum); run_meth; reflexivity.
  - destruct Ho as [Ho|Ho]; [done|]. rewrite decide_True by done.
    rewrite !bind_run.
    destruct (minimize _ _ _ self) as [[out|e] s1]; [|done].
    rewrite !bind_run.
    destruct (objective _ s1) as [[r|e] s2]; [|done].
    run_meth. reflexivity.
Qed.

(** X15: best_fit of a Match stores its results only at the very end:
    whenever it raises (unknown kind, optimizer failure, failing
    objective), best_params and best_chisq are what they were before
    the call. *)
Theorem best_fit_raising_keeps_fit_results
    (params : option (gmap string Param)) (self : Match) (e : Exn) :
  (Match_best_fit params self).1 = Raises e ->
  best_params (Match_best_fit params self).2 = best_params self /\
  best_chisq (Match_best_fit params self).2 = best_chisq self.
Proof.
  intros Hraise.
  enough (Hfr : frame (Match_best_fit params self).2 = frame self).
  { destruct (frame_fields _ _ Hfr) as (_ & _ & _ & _ & Ep & Ec & _). done. }
  destruct (decide (opt self = "lm" \/ opt self = "nelder")) as [Ho|Ho].
  - revert Hraise. rewrite (Match_best_fit_run _ _ Ho).
    pose proof (keeps_frame_minimize (Match_best_fit_params params)
                  (if decide (opt self = "lm") then None else Some "nelder")
                  self) as Hf1.
    destruct (minimize _ _ _ self) as [[out|e1] s1]; simpl in Hf1; [|done].
    pose proof (keeps_frame_objective (out_params out) s1) as Hf2.
    destruct (objective _ s1) as [[r|e2] s2]; simpl in Hf2;
      [|intros _; simpl; congruence].
    destruct (if decide (opt self = "lm") then _ else _);
      [done | intros _; simpl; congruence].
  - rewrite best_fit_unknown_kind_raises_aux by tauto. done.
Qed.

(** X16: what best_fit of a Match returns is consistent with what
    best_residuals gives afterwards: the returned number, which is also
    the stored best_chisq, is the sum of the squares of the residuals
    best_residuals returns on the fitted object. *)
Theorem best_fit_agrees_with_best_residuals
    (params : option (gmap string Param)) (self self' : Match)
    (a e : list F) (v : PyVal) :
  refs self = Single a e ->
  Match_best_fit params self = (Returns v, self') ->
  exists residuals,
    best_residuals self' = (Returns residuals, self') /\
    v = PyFloat (np_sum (map fpow2 residuals)) /\
    best_chisq self' = v.
Proof.
  intros Hr Hrun.
  destruct (decide (opt self = "lm" \/ opt self = "nelder")) as [Ho|Ho];
    [|rewrite best_fit_unknown_kind_raises_aux in Hrun by tauto; done].
  rewrite (Match_best_fit_run _ _ Ho) in Hrun.
  pose proof (keeps_frame_minimize (Match_best_fit_params params)
                (if decide (opt self = "lm") then None else Some "nelder")
                self) as Hf1.
  destruct (minimize _ _ _ self) as [[out|e1] s1]; simpl in Hf1; [|done].
  destruct (frame_fields _ _ Hf1) as (_ & _ & _ & Er & _ & _ & _ & Eo & _).
  assert (Hobj : objective (out_params out) s1
                 = Match_objective (out_params out) s1)
    by (unfold objective; rewrite Er, Hr; reflexivity).
  rewrite Hobj in Hrun.
  destruct (Match_objective (out_params out) s1) as [[r0|e2] s2] eqn:Eobj;
    [|done].
  destruct (Match_objective_returns _ _ _ _ Eobj) as (r & Eres & ->).
  rewrite Eo in Hrun.
  assert (Hc : (if decide (opt self = "lm")
                then py_pow2 (if decide (opt self = "lm") then PyArr r
                              else if decide (opt self = "nelder")
                                   then PyFloat (np_sum (map fpow2 r))
                                   else PyNone) ≫= py_sum
                else Returns (if decide (opt self = "lm") then PyArr r
                              else if decide (opt self = "nelder")
                                   then PyFloat (np_sum (map fpow2 r))
                                   else PyNone))
               = Returns (PyFloat (np_sum (map fpow2 r)))).
  { destruct (decide (opt self = "lm")); [reflexivity|].
    destruct Ho as [?|Ho]; [done|]. by rewrite decide_True. }
  rewrite Hc in Hrun.
  pose proof (f_equal fst Hrun) as Hv. pose proof (f_equal snd Hrun) as Hs.
  cbn [fst snd] in Hv, Hs. injection Hv as <-. rewrite <- Hs.
  exists r. split; [|split; reflexivity].
  rewrite best_residuals_ignores_best_params, best_residuals_ignores_best_chisq.
  by rewrite Eres.
Qed.

(** ** MatchLincomb.best_fit *)

Lemma add_lincomb_params_run (params : gmap string Param) (self : Match)
    (n : nat) (rs : list (list F * list F)) :
  refs self = Lincomb n rs ->
  add_lincomb_params params self =
  (Returns (add_coeff_loop n (seq 0 n)
              (Parameters_add params "num_refs" (lit (inject_Z (Z.of_nat n)))
                 false None None)), self).
Proof.
  intros Hr. unfold add_lincomb_params, getattr, attr_num_refs. run_meth.
  repeat (rewrite Hr; cbn beta iota). reflexivity.
Qed.

(** X17: best_fit of a MatchLincomb assigns best_params before it
    evaluates the objective a last time.  When that evaluation raises,
    best_fit raises the same, and the object is left with the new
    best_params next to the best_chisq of before. *)
Theorem lincomb_best_fit_raising_leaves_new_best_params
    (self self1 self2 : Match) (n : nat) (rs : list (list F * list F))
    (out : MinimizerResult) (e : Exn) :
  refs self = Lincomb n rs ->
  minimize objective
    (add_coeff_loop n (seq 0 n)
       (Parameters_add ∅ "num_refs" (lit (inject_Z (Z.of_nat n)))
          false None None))
    (Some "nelder") self = (Returns out, self1) ->
  objective (out_params out) (set_best_params (out_params out) self1).2
  = (Raises e, self2) ->
  MatchLincomb_best_fit self = (Raises e, self2) /\
  best_params self2 = out_params out /\
  best_chisq self2 = best_chisq self.
Proof.
  intros Hr Hmin Hobj.
  match type of Hmin with
  | minimize _ ?start _ _ = _ =>
      pose proof (keeps_frame_minimize start (Some "nelder") self) as Hf1
  end.
  rewrite Hmin in Hf1. simpl in Hf1.
  destruct (frame_fields _ _ Hf1) as (_ & _ & _ & _ & _ & Ec & _).
  pose proof (keeps_frame_objective (out_params out)
                (set_best_params (out_params out) self1).2) as Hf2.
  rewrite Hobj in Hf2. simpl in Hf2.
  destruct (frame_fields _ _ Hf2) as (_ & _ & _ & _ & Ep2 & Ec2 & _).
  split; [|split; [exact Ep2 | by rewrite Ec2, <- Ec]].
  unfold MatchLincomb_best_fit. cbv zeta.
  rewrite bind_run, (add_lincomb_params_run _ _ _ _ Hr), bind_run, Hmin.
  run_meth. cbn [best_params].
  unfold set_best_params in Hobj. cbn [snd] in Hobj.
  rewrite Hobj. reflexivity.
Qed.

(** ** What fitting never modifies *)

Lemma keeps_construction_of_frame {A} (c : Meth A) :
  keeps_frame c -> keeps_construction c.
Proof.
  intros Hc s. specialize (Hc s).
  destruct (frame_fields _ _ Hc) as (? & ? & ? & ? & _ & _ & ? & ? & ?).
  unfold construction. congruence.
Qed.

Lemma keeps_construction_bind {A B} (c : Meth A) (k : A -> Meth B) :
  keeps_construction c -> (forall a, keeps_construction (k a)) ->
  keeps_construction (c ≫= k).
Proof.
  intros Hc Hk self. rewrite bind_run. specialize (Hc self).
  destruct (c self) as [[a|e] self']; simpl in *; [|done].
  rewrite Hk. done.
Qed.

Lemma keeps_construction_decide {A} (P : Prop) `{Decision P} (c d : Meth A) :
  keeps_construction c -> keeps_construction d ->
  keeps_construction (if decide P then c else d).
Proof. destruct (decide P); done. Qed.

Lemma keeps_construction_set_best_params (v : gmap string Param) :
  keeps_construction (set_best_params v).
Proof. intros self. reflexivity. Qed.

Lemma keeps_construction_set_best_chisq (v : PyVal) :
  keeps_construction (set_best_chisq v).
Proof. intros self. reflexivity. Qed.

Ltac construction_steps :=
  repeat first
    [ apply keeps_construction_bind; [|intros ?]
    | apply keeps_construction_decide
    | apply keeps_construction_set_best_params
    | apply keeps_construction_set_best_chisq
    | apply keeps_construction_of_frame;
      first [ apply keeps_frame_minimize
            | apply keeps_frame_objective
            | solve [auto with frame] ] ].

(** X18: fitting never modifies the data of the object.  After best_fit
    of a Match and after best_fit of a MatchLincomb, returned or raised,
    the grid, the target and its uncertainty, the references, the mode,
    the optimizer kind and the knots are what construction made them. *)
Theorem best_fit_keeps_construction
    (params : option (gmap string Param)) (self : Match) :
  construction (Match_best_fit params self).2 = construction self /\
  construction (MatchLincomb_best_fit self).2 = construction self.
Proof.
  split.
  - revert self. change (keeps_construction (Match_best_fit params)).
    unfold Match_best_fit. cbv zeta. construction_steps.
  - revert self. change (keeps_construction MatchLincomb_best_fit).
    unfold MatchLincomb_best_fit, add_lincomb_params. cbv zeta.
    construction_steps.
Qed.

(** ** The coefficients of a MatchLincomb *)

Lemma getparam_returns (params : gmap string Param) name (p : Param) :
  getparam params name = Returns p -> params !! name = Some p.
Proof. unfold getparam. destruct (params !! name); by intros [= <-]. Qed.

(** A returning linear combination has read every coefficient. *)
Lemma lincomb_loop_reads_coefficients (params : gmap string Param)
    (idxs : list nat) (s s1 : Match) :
  lincomb_loop params idxs s = (Returns tt, s1) ->
  forall i, i ∈ idxs -> is_Some (params !! coeff_name i).
Proof.
  revert s. induction idxs as [|j rest IH]; intros s Hrun i Hin;
    [by apply elem_of_nil in Hin|].
  simpl in Hrun.
  do 3 (let x := fresh "x" in let t := fresh "t" in let H1 := fresh "Hstep" in
        apply bind_returns in Hrun as (x & t & H1 & Hrun)).
  apply call_returns in Hstep1 as [Hp ->].
  apply getparam_returns in Hp.
  apply elem_of_cons in Hin as [->|Hin]; [eauto|].
  do 7 (let x := fresh "x" in let t := fresh "t" in let H1 := fresh "Hstep" in
        apply bind_returns in Hrun as (x & t & H1 & Hrun)).
  by eapply IH.
Qed.

Lemma sum_coeff_loop_returns (params : gmap string Param) (idxs : list nat)
    (acc : F) :
  (forall i, i ∈ idxs -> is_Some (params !! coeff_name i)) ->
  exists sum_coeff, sum_coeff_loop params idxs acc = Returns sum_coeff.
Proof.
  revert acc. induction idxs as [|j rest IH]; intros acc Hall; simpl; [eauto|].
  destruct (Hall j) as [p Hp]; [by left|].
  unfold getparam. rewrite Hp. simpl. apply IH.
  intros i Hi. apply Hall. by right.
Qed.

Lemma MatchLincomb_create_model_reads_coefficients
    (params : gmap string Param) (self self1 : Match)
    (n : nat) (rs : list (list F * list F)) :
  refs self = Lincomb n rs ->
  create_model params self = (Returns tt, self1) ->
  forall i, i < n -> is_Some (params !! coeff_name i).
Proof.
  intros Hr. unfold create_model. rewrite Hr.
  unfold MatchLincomb_create_model. intros Hrun.
  do 5 (let x := fresh "x" in let t := fresh "t" in let H1 := fresh "Hstep" in
        apply bind_returns in Hrun as (x & t & H1 & Hrun)).
  apply getattr_returns in Hstep3 as [Hn ->].
  apply bind_returns in Hrun as (u & t3 & Hloop & Hrun).
  unfold set_s_mod, set_serr_mod, get in *. simplify_eq.
  unfold attr_num_refs in Hn. cbn in Hn. rewrite Hr in Hn. simplify_eq.
  destruct u. intros i Hi.
  eapply lincomb_loop_reads_coefficients; [exact Hloop|].
  apply elem_of_seq. lia.
Qed.

Lemma Match_objective_after_create_model (params : gmap string Param)
    (self self1 : Match) (v : PyVal) :
  Match_objective params self = (Returns v, self1) ->
  create_model params self = (Returns tt, self1).
Proof.
  rewrite Match_objective_run.
  destruct (create_model params self) as [[[]|e] s1]; [|done].
  pose proof (best_residuals_state s1) as Hst.
  destruct (best_residuals s1) as [[r|e] s2]; [|done].
  simpl in Hst. subst s2. by intros [= _ <-].
Qed.

(** X19: in the objective of a MatchLincomb the sum of the coefficients
    cannot fail: create_model has read every coeff_i before, so a
    missing coefficient raises there.  Once the inherited objective has
    returned, the result is its value with the prior added. *)
Theorem lincomb_objective_prior_cannot_fail
    (params : gmap string Param) (self self1 : Match)
    (n : nat) (rs : list (list F * list F)) (base : PyVal) :
  refs self = Lincomb n rs ->
  Match_objective params self = (Returns base, self1) ->
  exists sum_coeff,
    sum_coeff_loop params (seq 0 n) (lit 0) = Returns sum_coeff /\
    MatchLincomb_objective params self
    = (py_iadd base (gaussian_prior sum_coeff), self1).
Proof.
  intros Hr Hobj.
  pose proof (Match_objective_after_create_model _ _ _ _ Hobj) as Hcm.
  destruct (sum_coeff_loop_returns params (seq 0 n) (lit 0)) as [sc Hsc].
  { intros i Hi. apply elem_of_seq in Hi.
    eapply MatchLincomb_create_model_reads_coefficients; [done..|lia]. }
  exists sc. split; [done|].
  by apply (MatchLincomb_objective_run _ _ _ n rs).
Qed.

(** X20: with an optimizer kind that is neither 'lm' nor 'nelder' the
    objective of a MatchLincomb does not return None as that of a Match
    does: adding the prior to the None it inherits raises TypeError. *)
Theorem lincomb_objective_unknown_kind_raises
    (params : gmap string Param) (self self1 : Match)
    (n : nat) (rs : list (list F * list F)) (m em : list F) :
  refs self = Lincomb n rs ->
  opt self <> "lm" -> opt self <> "nelder" ->
  create_model params self = (Returns tt, self1) ->
  aligned self1 m em ->
  MatchLincomb_objective params self = (Raises TypeError, self1).
Proof.
  intros Hr Hlm Hnm Hcm Hal.
  pose proof (Match_objective_aligned _ _ _ _ _ Hcm Hal) as Hobj.
  cbv zeta in Hobj. rewrite !decide_False in Hobj by done.
  destruct (sum_coeff_loop_returns params (seq 0 n) (lit 0)) as [sc Hsc].
  { intros i Hi. apply elem_of_seq in Hi.
    eapply MatchLincomb_create_model_reads_coefficients; [done..|lia]. }
  rewrite (MatchLincomb_objective_run _ _ _ n rs _ _ Hr Hobj Hsc). reflexivity.
Qed.

(** ** add_lincomb_params *)

Lemma coeff_name_not_num_refs (i : nat) : coeff_name i <> "num_refs".
Proof. unfold coeff_name. simpl. discriminate. Qed.

Lemma add_coeff_loop_other (n : nat) (idxs : list nat)
    (params : gmap string Param) (name : string) :
  (forall i, i ∈ idxs -> name <> coeff_name i) ->
  add_coeff_loop n idxs params !! name = params !! name.
Proof.
  revert params. induction idxs as [|j rest IH]; intros params Hne; [done|].
  simpl. rewrite IH by (intros i Hi; apply Hne; by right).
  unfold Parameters_add. apply lookup_insert_ne.
  intros E. by apply (Hne j); [left|].
Qed.

Lemma add_coeff_loop_coeff (n : nat) (idxs : list nat)
    (params : gmap string Param) (i : nat) :
  i ∈ idxs ->
  add_coeff_loop n idxs params !! coeff_name i
  = Some {| value := fdiv (lit 1) (lit (inject_Z (Z.of_nat n)));
            vary := true; pmin := Some (lit 0); pmax := Some (lit 1) |}.
Proof.
  revert params i. induction idxs as [|j rest IH]; intros params i Hin;
    [by apply elem_of_nil in Hin|].
  simpl.
  destruct (decide (coeff_name i ∈ coeff_name <$> rest)) as [Hk|Hk].
  - apply list_elem_of_fmap in Hk as (k & -> & Hk). by apply IH.
  - rewrite add_coeff_loop_other.
    + apply elem_of_cons in Hin as [->|Hin].
      * unfold Parameters_add. apply lookup_insert_eq.
      * exfalso. apply Hk. apply list_elem_of_fmap. eauto.
    + intros k Hin' E. apply Hk. apply list_elem_of_fmap. eauto.
Qed.

(** X21: on a MatchLincomb with n references add_lincomb_params returns
    the container it was given with 'num_refs' added as a fixed
    parameter of value n and, for every i below n, 'coeff_i' added at
    1/n with bounds [0, 1]; every other entry is as it was, and the
    object is not touched. *)
Theorem add_lincomb_params_entries
    (params : gmap string Param) (self : Match)
    (n : nat) (rs : list (list F * list F)) :
  refs self = Lincomb n rs ->
  exists start,
    add_lincomb_params params self = (Returns start, self) /\
    start !! "num_refs"
    = Some {| value := lit (inject_Z (Z.of_nat n)); vary := false;
              pmin := None; pmax := None |} /\
    (forall i, i < n ->
       start !! coeff_name i
       = Some {| value := fdiv (lit 1) (lit (inject_Z (Z.of_nat n)));
                 vary := true; pmin := Some (lit 0); pmax := Some (lit 1) |}) /\
    (forall name, name <> "num_refs" ->
       (forall i, i < n -> name <> coeff_name i) ->
       start !! name = params !! name).
Proof.
  intros Hr. eexists. split; [by apply (add_lincomb_params_run _ _ n rs)|].
  split; [|split].
  - rewrite add_coeff_loop_other.
    + unfold Parameters_add. apply lookup_insert_eq.
    + intros i _ E. by apply (coeff_name_not_num_refs i).
  - intros i Hi. apply add_coeff_loop_coeff. apply elem_of_seq. lia.
  - intros name Hne Hco. rewrite add_coeff_loop_other.
    + unfold Parameters_add. by apply lookup_insert_ne.
    + intros i Hi. apply Hco. apply elem_of_seq in Hi. lia.
Qed.

(** ** The model of a MatchLincomb *)

Lemma np_iop_length (f : F -> F -> F) (a b r : list F) :
  np_iop f a b = Returns r -> length r = length a.
Proof.
  unfold np_iop. destruct (decide (length a = length b)) as [E|E].
  - intros [= <-]. rewrite length_zip_with. lia.
  - destruct b as [|y [|]]; intros [=]. subst. by rewrite length_map.
Qed.

Ltac invert_binds :=
  repeat match goal with
         | H : (_ ≫= _) _ = (Returns _, _) |- _ =>
             let H1 := fresh "Hstep" in
             apply bind_returns in H as (? & ? & H1 & H)
         | H : getattr _ _ _ = (Returns _, _) |- _ =>
             apply getattr_returns in H as [H ->]
         | H : call _ _ = (Returns _, _) |- _ =>
             apply call_returns in H as [H ->]
         | H : get _ _ = (Returns _, _) |- _ =>
             apply get_returns in H as [-> ->]
         end.

Lemma lincomb_loop_lengths (params : gmap string Param) (idxs : list nat)
    (s s1 : Match) (m em : list F) :
  lincomb_loop params idxs s = (Returns tt, s1) ->
  s_mod s = Some m -> serr_mod s = Some em ->
  exists m' em', s_mod s1 = Some m' /\ serr_mod s1 = Some em' /\
    length m' = length m /\ length em' = length em.
Proof.
  revert s m em. induction idxs as [|j rest IH]; intros s m em Hrun Em Ee.
  - simpl in Hrun. injection Hrun as <-. by exists m, em.
  - simpl in Hrun. unfold s_refs_row in Hrun. invert_binds.
    unfold set_s_mod, set_serr_mod in *. simplify_eq. cbn in *.
    simplify_eq.
    match goal with
    | H1 : np_iop fadd _ (map _ (fst _)) = Returns ?a,
      H2 : np_iop fadd _ (map _ (snd _)) = Returns ?b |- _ =>
        apply np_iop_length in H1, H2;
        destruct (IH _ a b Hrun eq_refl eq_refl) as (m' & em' & ? & ? & ? & ?)
    end.
    exists m', em'. repeat split; try done; congruence.
Qed.

(** X22: whenever create_model of a MatchLincomb returns, the model
    flux and the model uncertainty have exactly the length of the
    wavelength grid, whatever the lengths of the references: every
    step works in place on arrays created like the grid. *)
Theorem lincomb_model_has_grid_length
    (params : gmap string Param) (self self1 : Match)
    (n : nat) (rs : list (list F * list F)) :
  refs self = Lincomb n rs ->
  create_model params self = (Returns tt, self1) ->
  exists m em, s_mod self1 = Some m /\ serr_mod self1 = Some em /\
    length m = length (w self) /\ length em = length (w self).
Proof.
  intros Hr. unfold create_model. rewrite Hr.
  unfold MatchLincomb_create_model. intros Hfit. invert_binds.
  match goal with
  | H : lincomb_loop _ _ _ = (Returns ?u, _) |- _ =>
      destruct u; rename H into Hloop
  end.
  unfold set_s_mod, set_serr_mod in *. simplify_eq. cbn in *.
  destruct (lincomb_loop_lengths _ _ _ _ _ _ Hloop eq_refl eq_refl)
    as (m' & em' & Em' & Ee' & Lm & Le).
  destruct (fit_continuum_returns _ _ Hfit)
    as (m0 & e0 & c & m & em & Em0 & Ee0 & Hm & He & Em & Ee & _).
  apply np_iop_length in Hm, He. simplify_eq.
  exists m, em. repeat split; try done.
  - rewrite Hm, Lm. unfold np_zeros_like. by rewrite length_replicate.
  - rewrite He, Le. unfold np_zeros_like. by rewrite length_replicate.
Qed.

(** ** Evaluating the objective again *)

Lemma two_runs_MatchLincomb_objective (params : gmap string Param) :
  two_runs 0 (MatchLincomb_objective params) 3.
Proof.
  unfold MatchLincomb_objective.
  eapply two_runs_cast; [|reflexivity].
  eapply two_runs_bind; [apply two_runs_Match_objective|intros base].
  two_steps.
Qed.

Lemma two_runs_objective (params : gmap string Param) :
  two_runs 0 (objective params) 3.
Proof.
  intros a b Hab. pose proof Hab as [Hf _].
  destruct (frame_fields _ _ Hf) as (_ & _ & _ & Er & _).
  unfold objective. rewrite <- Er. destruct (refs a).
  - by apply two_runs_Match_objective.
  - by apply two_runs_MatchLincomb_objective.
Qed.

(** X23: the objective, of a Match and of a MatchLincomb alike, can be
    evaluated again: called a second time with the same parameters on
    the object the first call left, it returns (or raises) what the
    first call did and leaves the object as it found it.  What best_fit
    computes at the end is therefore what the optimizer got at those
    parameters. *)
Theorem objective_can_be_evaluated_again
    (params : gmap string Param) (self : Match) :
  objective params (objective params self).2 = objective params self.
Proof.
  apply (two_runs_idempotent 3).
  - apply two_runs_objective.
  - apply keeps_frame_objective.
Qed.

End Properties.

Section UtilsProperties.
Context {F : Type} `{Float64 F} {Obj : Type} `{!@Astropy F Obj}.

(** X25: calc_logg never returns.  The module binds no global named
    row, so every call whose astropy computation succeeds raises
    NameError on row at line 27, whatever the arguments; a call whose
    astropy computation raises, raises that. *)
Theorem calc_logg_never_returns
    (globals : gmap string Obj) (radius u_radius mass u_mass : F) :
  globals !! "row" = None ->
  (forall r, calc_logg globals radius u_radius mass u_mass <> Ok r) /\
  (forall logg, logg_cgs radius mass = Returns logg ->
     calc_logg globals radius u_radius mass u_mass = NameError "row").
Proof.
  intros Hrow. unfold calc_logg, load_global. rewrite Hrow.
  split.
  - intros r. destruct (logg_cgs radius mass); done.
  - intros logg ->. reflexivity.
Qed.

End UtilsProperties.

(** ** Runs on explicit objects *)

Lemma knots_interior_from_seven_witness :
  exists ks, spline_knots Demo.grid7 = Returns ks /\ length ks = 5 /\
    (forall i, 1 <= i <= 5 ->
       ks !! (i - 1) = Demo.grid7 !! (length Demo.grid7 / 6 * i) /\
       0 < length Demo.grid7 / 6 * i < length Demo.grid7 - 1) /\
    (forall targ ref md o self,
       Match_init Demo.grid7 targ ref md o = Returns self -> knot_x self = ks) /\
    (forall targ s_refs vsini md o self,
       MatchLincomb_init Demo.grid7 targ s_refs vsini md o = Returns self ->
       knot_x self = ks).
Proof. apply (knots_interior_from_seven Demo.grid7). vm_compute. lia. Defined.

(** C5, as stated, fails on a grid of exactly six points: the five knots
    are computed, but the fifth is read at index 5 = n-1, the last grid
    point, which is not strictly inside the grid. *)
Lemma knots_six_points_reach_endpoint :
  6 <= length Demo.grid6 /\
  spline_knots Demo.grid6 = Returns (drop 1 Demo.grid6) /\
  length Demo.grid6 / 6 * 5 = length Demo.grid6 - 1 /\
  ~ (0 < length Demo.grid6 / 6 * 5 < length Demo.grid6 - 1).
Proof.
  split; [vm_compute; lia|].
  split; [vm_compute; reflexivity|].
  split; [reflexivity|].
  vm_compute. lia.
Qed.

Lemma Match_init_accepts_any_target_length_witness :
  exists self,
    Match_init Demo.grid7 ([lit 1], [lit 1]) Demo.ref7 "default" "lm" = Returns self /\
    w self = Demo.grid7 /\ s_targ self = [lit 1] /\ serr_targ self = [lit 1].
Proof.
  apply (Match_init_accepts_any_target_length Demo.grid7 ([lit 1], [lit 1])).
  vm_compute. discriminate.
Defined.

(** C7, as stated, fails: a target flux of one sample on a grid of seven
    is accepted, and the constructor returns the object. *)
Lemma Match_init_accepts_mismatched_target :
  length ([lit 1 : float], [lit 1 : float]).1 <> length Demo.grid7 /\
  exists self,
    Match_init Demo.grid7 ([lit 1], [lit 1]) Demo.ref7 "default" "lm" = Returns self.
Proof.
  split; [vm_compute; lia|].
  eexists. vm_compute. reflexivity.
Qed.

Lemma best_residuals_before_fit_raises_witness :
  best_residuals (Demo.match7 "default" "lm")
  = (Raises (AttributeError "s_mod"), Demo.match7 "default" "lm").
Proof.
  apply (best_residuals_before_fit_raises Demo.grid7 Demo.targ7 Demo.ref7
           "default" "lm").
  vm_compute. reflexivity.
Defined.

(** C6, as stated, fails: a caller passes a container with vsini = 5.0,
    and the container the optimizer starts from holds vsini = 1.0. *)
Lemma best_fit_discards_supplied_vsini :
  value <$> Demo.param1 "vsini" 5 !! "vsini" = Some (lit 5) /\
  value <$> Match_best_fit_params (Some (Demo.param1 "vsini" 5)) !! "vsini"
    = Some (lit 1) /\
  PrimFloat.eqb (lit 1) (lit 5) = false.
Proof. repeat split; vm_compute; reflexivity. Qed.

Ltac runs := vm_compute; reflexivity.

Ltac is_aligned :=
  split; [runs | split; [runs | split; [runs | intros _; split; runs]]].

Lemma objective_returns_residuals_or_chi_square_witness :
  let self := Demo.match7 "normalized" "nelder" in
  let self1 := (create_model Demo.vsini0 self).2 in
  let residuals :=
    residual_sequence (mode self) (s_targ self) (serr_targ self)
      (Demo.flat7 1) (Demo.flat7 (1 # 10)) in
  (opt self = "lm" ->
   Match_objective Demo.vsini0 self = (Returns (PyArr residuals), self1)) /\
  (opt self = "nelder" ->
   Match_objective Demo.vsini0 self
   = (Returns (PyFloat (np_sum (map fpow2 residuals))), self1)).
Proof.
  apply (objective_returns_residuals_or_chi_square Demo.vsini0
           (Demo.match7 "normalized" "nelder")).
  - runs.
  - is_aligned.
Defined.

Lemma objective_returns_None_on_other_kind_witness :
  let self := Demo.match7 "default" "simplex" in
  Match_objective Demo.vsini0 self
  = (Returns PyNone, (create_model Demo.vsini0 self).2) /\
  s_mod (create_model Demo.vsini0 self).2 = Some (Demo.flat7 1) /\
  serr_mod (create_model Demo.vsini0 self).2 = Some (Demo.flat7 (1 # 10)).
Proof.
  apply (objective_returns_None_on_other_kind Demo.vsini0
           (Demo.match7 "default" "simplex")).
  - runs.
  - is_aligned.
  - vm_compute. discriminate.
  - vm_compute. discriminate.
Defined.

Lemma lincomb_objective_with_lm_returns_array_witness :
  let self := Demo.lincomb7 "default" "lm" in
  let params := Demo.coeffs2 (1 # 2) (1 # 4) in
  exists residuals, PyArr (Demo.flat7 (5 # 4)) = PyArr residuals /\
    MatchLincomb_objective params self
    = (Returns (PyArr (map (fun r => fadd r (gaussian_prior (lit (3 # 4))))
                         residuals)),
       (Match_objective params self).2).
Proof.
  apply (lincomb_objective_with_lm_returns_array
           (Demo.coeffs2 (1 # 2) (1 # 4)) (Demo.lincomb7 "default" "lm")
           _ 2 [Demo.ref7; Demo.ref7]).
  - runs.
  - runs.
  - runs.
  - runs.
Defined.

Lemma best_fit_recomputes_chi_square_witness :
  let self := Demo.match7 "normalized" "nelder" in
  let chi_square :=
    np_sum (map fpow2
      (residual_sequence (mode self) (s_targ self) (serr_targ self)
         (Demo.flat7 1) (Demo.flat7 (1 # 10)))) in
  exists final,
    Match_best_fit None self = (Returns (PyFloat chi_square), final) /\
    best_chisq final = PyFloat chi_square /\
    best_params final = Match_best_fit_params None.
Proof.
  eapply (best_fit_recomputes_chi_square None
            (Demo.match7 "normalized" "nelder") _ _ _ _
            {| out_params := Match_best_fit_params None |}).
  - runs.
  - right. split; runs.
  - runs.
  - is_aligned.
Defined.

Lemma lincomb_best_fit_stores_objective_value_witness :
  let self := Demo.lincomb7 "default" "nelder" in
  exists out v final,
    MatchLincomb_best_fit self = (Returns v, final) /\
    best_chisq final = v /\
    best_params final = out_params out /\
    frame final
    = frame (set_best_chisq v (set_best_params (out_params out) self).2).2.
Proof.
  do 2 eexists.
  eapply (lincomb_best_fit_stores_objective_value
            (Demo.lincomb7 "default" "nelder")).
  - runs.
  - runs.
  - runs.
  - runs.
  - runs.
  - runs.
Defined.

(** A MatchLincomb built with the constructor's default kind 'lm': what
    best_fit stores and returns as best chi-square is an array. *)
Example demo_lincomb_best_fit_lm :
  (MatchLincomb_best_fit (Demo.lincomb7 "default" "lm")).1
  = Returns (PyArr (Demo.flat7 1)).
Proof. runs. Qed.

(** With a kind that is neither 'lm' nor 'nelder', adding the prior to
    None raises. *)
Example demo_lincomb_objective_other_kind :
  (MatchLincomb_objective (Demo.coeffs2 (1 # 2) (1 # 4))
     (Demo.lincomb7 "default" "simplex")).1
  = Raises TypeError.
Proof. runs. Qed.

(** ** Runs for the further properties *)

Lemma Match_init_short_grid_repeats_first_point_witness :
  exists self,
    Match_init Demo.grid1 Demo.targ7 Demo.ref7 "default" "lm" = Returns self /\
    knot_x self = replicate 5 (lit 5000).
Proof.
  apply (Match_init_short_grid_repeats_first_point Demo.grid1).
  - runs.
  - vm_compute. lia.
Defined.

Lemma MatchLincomb_init_keeps_shape_witness :
  exists stored,
    refs (Demo.lincomb7 "default" "lm")
    = Lincomb (length [Demo.ref7; Demo.ref7]) stored /\
    length stored = length [Demo.ref7; Demo.ref7] /\
    forall i r, stored !! i = Some r ->
      exists r0, [Demo.ref7; Demo.ref7] !! i = Some r0 /\
        length r.1 = length r0.1 /\ length r.2 = length r0.2.
Proof.
  apply (MatchLincomb_init_keeps_shape Demo.grid7 Demo.targ7
           [Demo.ref7; Demo.ref7] [lit 0; lit 0] "default" "lm").
  runs.
Defined.

Lemma MatchLincomb_init_short_vsini_raises_witness :
  exists e,
    MatchLincomb_init Demo.grid7 Demo.targ7 [Demo.ref7; Demo.ref7] [lit 0]
      "default" "lm" = Raises e.
Proof.
  apply MatchLincomb_init_short_vsini_raises. simpl. lia.
Defined.

Lemma MatchLincomb_init_needs_two_grid_points_witness :
  MatchLincomb_init Demo.grid1 Demo.targ7 [Demo.ref7] [lit 0] "default" "lm"
  = Raises IndexError.
Proof.
  apply MatchLincomb_init_needs_two_grid_points.
  - simpl. lia.
  - discriminate.
Defined.

Lemma MatchLincomb_init_without_references_witness :
  exists self,
    MatchLincomb_init Demo.grid7 Demo.targ7 [] [] "default" "lm" = Returns self /\
    refs self = Lincomb 0 [] /\ w self = Demo.grid7.
Proof.
  apply MatchLincomb_init_without_references. vm_compute. discriminate.
Defined.

Lemma broaden_needs_two_grid_points_witness :
  let self := Demo.on_grid Demo.grid1 (Demo.match7 "default" "lm") in
  broaden (lit 0) (Demo.flat7 1) self = (Raises IndexError, self).
Proof.
  apply broaden_needs_two_grid_points. simpl. lia.
Defined.

Lemma broaden_reads_first_two_samples_witness :
  let self := Demo.match7 "default" "lm" in
  let self' := Demo.on_grid Demo.grid6 (Demo.lincomb7 "normalized" "nelder") in
  (broaden (lit 3) (Demo.flat7 1) self).1
  = (broaden (lit 3) (Demo.flat7 1) self').1 /\
  (broaden (lit 3) (Demo.flat7 1) self).2 = self.
Proof.
  apply broaden_reads_first_two_samples; runs.
Defined.

Lemma best_residuals_after_create_model_witness :
  let self1 := (create_model Demo.vsini0 (Demo.match7 "default" "lm")).2 in
  is_Some (s_mod self1) /\ is_Some (serr_mod self1) /\ is_Some (spl self1) /\
  forall e, (best_residuals self1).1 = Raises e -> e = ValueError.
Proof.
  apply (best_residuals_after_create_model Demo.vsini0
           (Demo.match7 "default" "lm")).
  runs.
Defined.

Lemma create_model_without_vsini_witness :
  let self := Demo.match7 "default" "lm" in
  exists self1,
    create_model ∅ self = (Raises (KeyError "vsini"), self1) /\
    s_mod self1 = Some Demo.ref7.1 /\ serr_mod self1 = Some Demo.ref7.2 /\
    spl self1 = spl self /\ frame self1 = frame self.
Proof.
  apply create_model_without_vsini; runs.
Defined.

Lemma create_model_length_mismatch_witness :
  let self :=
    Demo.with_target (replicate 3 (lit 2)) (Demo.match7 "default" "lm") in
  exists self1,
    create_model Demo.vsini0 self = (Raises ValueError, self1) /\
    s_mod self1 = Some (Demo.flat7 1) /\
    serr_mod self1 = Some (Demo.flat7 (1 # 10)) /\
    spl self1 = spl self /\ frame self1 = frame self.
Proof.
  eapply (create_model_length_mismatch Demo.vsini0
            (Demo.with_target (replicate 3 (lit 2))
               (Demo.match7 "default" "lm"))).
  - runs.
  - runs.
  - runs.
  - runs.
  - vm_compute. lia.
  - vm_compute. lia.
  - vm_compute. lia.
Defined.

Lemma best_residuals_after_objective_witness :
  let self := Demo.match7 "default" "lm" in
  let self1 := (Match_objective Demo.vsini0 self).2 in
  exists residuals,
    best_residuals self1 = (Returns residuals, self1) /\
    (opt self = "lm" -> PyArr (Demo.flat7 1) = PyArr residuals) /\
    (opt self = "nelder" ->
     PyArr (Demo.flat7 1) = PyFloat (np_sum (map fpow2 residuals))).
Proof.
  apply (best_residuals_after_objective Demo.vsini0
           (Demo.match7 "default" "lm")).
  runs.
Defined.

Lemma best_fit_unknown_kind_raises_witness :
  Match_best_fit None (Demo.match7 "default" "simplex")
  = (Raises (UnboundLocalError "out"), Demo.match7 "default" "simplex").
Proof.
  apply best_fit_unknown_kind_raises; vm_compute; discriminate.
Defined.

Lemma best_fit_raising_keeps_fit_results_witness :
  let self := Demo.match7 "default" "simplex" in
  best_params (Match_best_fit None self).2 = best_params self /\
  best_chisq (Match_best_fit None self).2 = best_chisq self.
Proof.
  apply (best_fit_raising_keeps_fit_results None
           (Demo.match7 "default" "simplex") (UnboundLocalError "out")).
  runs.
Defined.

Lemma best_fit_agrees_with_best_residuals_witness :
  let self' := (Match_best_fit None (Demo.match7 "normalized" "lm")).2 in
  exists residuals,
    best_residuals self' = (Returns residuals, self') /\
    best_chisq self' = PyFloat (np_sum (map fpow2 residuals)) /\
    best_chisq self' = best_chisq self'.
Proof.
  eapply (best_fit_agrees_with_best_residuals None
            (Demo.match7 "normalized" "lm")).
  - runs.
  - runs.
Defined.

Lemma lincomb_best_fit_raising_leaves_new_best_params_witness :
  let self := Demo.lincomb7 "default" "nelder" in
  exists self2 e,
    @MatchLincomb_best_fit float Demo.float64 Demo.library_giving_up self
    = (Raises e, self2) /\
    best_params self2 = Demo.param1 "vsini" 0 /\
    best_chisq self2 = best_chisq self.
Proof.
  do 2 eexists.
  eapply (@lincomb_best_fit_raising_leaves_new_best_params
            float Demo.float64 Demo.library_giving_up
            (Demo.lincomb7 "default" "nelder") _ _ 2 [Demo.ref7; Demo.ref7]
            {| out_params := Demo.param1 "vsini" 0 |}).
  - runs.
  - runs.
  - runs.
Defined.

Lemma lincomb_objective_prior_cannot_fail_witness :
  let self := Demo.lincomb7 "default" "nelder" in
  let params := Demo.coeffs2 (1 # 2) (1 # 4) in
  exists base self1 sum_coeff,
    sum_coeff_loop params (seq 0 2) (lit 0) = Returns sum_coeff /\
    MatchLincomb_objective params self
    = (py_iadd base (gaussian_prior sum_coeff), self1).
Proof.
  do 2 eexists.
  eapply (lincomb_objective_prior_cannot_fail
            (Demo.coeffs2 (1 # 2) (1 # 4))
            (Demo.lincomb7 "default" "nelder") _ 2 [Demo.ref7; Demo.ref7]).
  - runs.
  - runs.
Defined.

Lemma lincomb_objective_unknown_kind_raises_witness :
  let self := Demo.lincomb7 "default" "simplex" in
  let params := Demo.coeffs2 (1 # 2) (1 # 4) in
  MatchLincomb_objective params self
  = (Raises TypeError, (create_model params self).2).
Proof.
  eapply (lincomb_objective_unknown_kind_raises
            (Demo.coeffs2 (1 # 2) (1 # 4))
            (Demo.lincomb7 "default" "simplex") _ 2 [Demo.ref7; Demo.ref7]).
  - runs.
  - vm_compute. discriminate.
  - vm_compute. discriminate.
  - runs.
  - is_aligned.
Defined.

Lemma add_lincomb_params_entries_witness :
  let self := Demo.lincomb7 "default" "lm" in
  exists start,
    add_lincomb_params ∅ self = (Returns start, self) /\
    start !! "num_refs"
    = Some {| value := lit 2; vary := false; pmin := None; pmax := None |} /\
    (forall i, i < 2 ->
       start !! coeff_name i
       = Some {| value := fdiv (lit 1) (lit 2);
                 vary := true; pmin := Some (lit 0); pmax := Some (lit 1) |}) /\
    (forall name, name <> "num_refs" ->
       (forall i, i < 2 -> name <> coeff_name i) ->
       start !! name = (∅ : gmap string Param) !! name).
Proof.
  apply (add_lincomb_params_entries ∅ (Demo.lincomb7 "default" "lm")
           2 [Demo.ref7; Demo.ref7]).
  runs.
Defined.

Lemma lincomb_model_has_grid_length_witness :
  let self := Demo.lincomb7 "default" "lm" in
  let self1 := (create_model (Demo.coeffs2 (1 # 2) (1 # 4)) self).2 in
  exists m em, s_mod self1 = Some m /\ serr_mod self1 = Some em /\
    length m = length (w self) /\ length em = length (w self).
Proof.
  apply (lincomb_model_has_grid_length (Demo.coeffs2 (1 # 2) (1 # 4))
           (Demo.lincomb7 "default" "lm") _ 2 [Demo.ref7; Demo.ref7]).
  - runs.
  - runs.
Defined.

Lemma lincomb_objective_with_nelder_returns_scalar_witness :
  let self := Demo.lincomb7 "default" "nelder" in
  let params := Demo.coeffs2 (1 # 2) (1 # 4) in
  exists m em sum_coeff,
    MatchLincomb_objective params self
    = (Returns (PyFloat
         (fadd (np_sum (map fpow2
                  (residual_sequence (mode self) (s_targ self)
                     (serr_targ self) m em)))
               (gaussian_prior sum_coeff))),
       (create_model params self).2).
Proof.
  do 3 eexists.
  eapply (lincomb_objective_with_nelder_returns_scalar
            (Demo.coeffs2 (1 # 2) (1 # 4))
            (Demo.lincomb7 "default" "nelder") _ 2 [Demo.ref7; Demo.ref7]).
  - runs.
  - runs.
  - runs.
  - is_aligned.
  - runs.
Defined.

Lemma calc_logg_never_returns_witness :
  (forall r,
     calc_logg Demo.utils_globals (lit 1) (lit 0) (lit 1) (lit 0) <> Ok r) /\
  (forall logg, logg_cgs (lit 1) (lit 1) = Returns logg ->
     calc_logg Demo.utils_globals (lit 1) (lit 0) (lit 1) (lit 0)
     = NameError "row").
Proof.
  apply (calc_logg_never_returns Demo.utils_globals). runs.
Defined.
